(** * cleartext: attention-based encoder/decoder for text simplification

    A shallow embedding of [cleartext/models/encoder_decoder.py] (the GRU
    model together with its rollout loop) and of
    [cleartext/models/components.py] (the LSTM building blocks), followed by
    the properties of the forward computation.

    Conventions of the embedding.
    - A tensor is its shape together with its entries, the entries being
      given by an index function which is only meaningful inside the shape.
      Ranks are fixed by the type ([ten1], [ten2], [ten3]).
    - Scalars are real numbers: the arithmetic of the code is read as exact
      arithmetic, without rounding, infinities or NaN.
    - An operation that raises in Python returns [None].
    - The two random sources of the code, [random.random()] and the dropout
      masks, are explicit inputs ([Rng]). *)

From Stdlib Require Import Reals Lra Lia ZArith List Bool Arith.
From stdpp Require Import base option.

#[local] Open Scope R_scope.

(** ** Tensors and the operations of the tensor library *)

Module Torch.

Record ten1 (A : Type) : Type := Ten1 {
  len1 : nat;
  at1 : nat -> A
}.

Record ten2 (A : Type) : Type := Ten2 {
  rows2 : nat;
  cols2 : nat;
  at2 : nat -> nat -> A
}.

Record ten3 (A : Type) : Type := Ten3 {
  dim0 : nat;
  dim1 : nat;
  dim2 : nat;
  at3 : nat -> nat -> nat -> A
}.

Arguments Ten1 {A} _ _.
Arguments len1 {A} _.
Arguments at1 {A} _ _.
Arguments Ten2 {A} _ _ _.
Arguments rows2 {A} _.
Arguments cols2 {A} _.
Arguments at2 {A} _ _ _.
Arguments Ten3 {A} _ _ _ _.
Arguments dim0 {A} _.
Arguments dim1 {A} _.
Arguments dim2 {A} _.
Arguments at3 {A} _ _ _ _.

Definition shape2 {A} (t : ten2 A) : nat * nat := (rows2 t, cols2 t).
Definition shape3 {A} (t : ten3 A) : nat * nat * nat := (dim0 t, dim1 t, dim2 t).

(** [sumR n f] is [f 0 + ... + f (n-1)]. *)
Fixpoint sumR (n : nat) (f : nat -> R) : R :=
  match n with
  | O => 0
  | S k => sumR k f + f k
  end.

(** [forall_lt n p] holds when [p] holds of every index below [n]. *)
Fixpoint forall_lt (n : nat) (p : nat -> bool) : bool :=
  match n with
  | O => true
  | S k => forall_lt k p && p k
  end.

(** Smallest and largest of [f 0 .. f n] (that is, of [n + 1] values). *)
Fixpoint minR (n : nat) (f : nat -> R) : R :=
  match n with
  | O => f O
  | S k => Rmin (minR k f) (f (S k))
  end.

Fixpoint maxR (n : nat) (f : nat -> R) : R :=
  match n with
  | O => f O
  | S k => Rmax (maxR k f) (f (S k))
  end.

(** [torch.zeros(a, b, c)] *)
Definition zeros3 (a b c : nat) : ten3 R := Ten3 a b c (fun _ _ _ => 0).

(** [x.unsqueeze(0)] on a vector and on a matrix, [x.unsqueeze(1)] on a
    matrix. *)
Definition unsqueeze0_1 {A} (x : ten1 A) : ten2 A :=
  Ten2 1 (len1 x) (fun _ j => at1 x j).

Definition unsqueeze0_2 {A} (x : ten2 A) : ten3 A :=
  Ten3 1 (rows2 x) (cols2 x) (fun _ j k => at2 x j k).

Definition unsqueeze1_2 {A} (x : ten2 A) : ten3 A :=
  Ten3 (rows2 x) 1 (cols2 x) (fun i _ k => at2 x i k).

(** [x.squeeze(0)] on a rank-3 tensor whose first dimension is 1.  With
    another first dimension [squeeze] leaves the tensor at rank 3; in the
    code every squeezed tensor then meets rank-2 tensors in [torch.cat] or
    is handed back as a decoder state of the wrong rank, so the model stops
    there. *)
Definition squeeze0 {A} (x : ten3 A) : option (ten2 A) :=
  if (dim0 x =? 1)%nat
  then Some (Ten2 (dim1 x) (dim2 x) (fun j k => at3 x O j k))
  else None.

(** [x.repeat(1, n, 1)] *)
Definition repeat_1n1 {A} (n : nat) (x : ten3 A) : ten3 A :=
  Ten3 (dim0 x) (dim1 x * n) (dim2 x)
       (fun i j k => at3 x i (j mod dim1 x) k).

(** [x.permute(1, 0, 2)] *)
Definition permute102 {A} (x : ten3 A) : ten3 A :=
  Ten3 (dim1 x) (dim0 x) (dim2 x) (fun i j k => at3 x j i k).

(** [torch.cat((a, b), dim=2)] on rank-3 tensors and
    [torch.cat((a, b), dim=1)] on matrices: the other dimensions have to
    agree. *)
Definition cat3_2 {A} (a b : ten3 A) : option (ten3 A) :=
  if (dim0 a =? dim0 b)%nat && (dim1 a =? dim1 b)%nat
  then Some (Ten3 (dim0 a) (dim1 a) (dim2 a + dim2 b)
               (fun i j k => if (k <? dim2 a)%nat then at3 a i j k
                             else at3 b i j (k - dim2 a)))
  else None.

Definition cat2_1 {A} (a b : ten2 A) : option (ten2 A) :=
  if (rows2 a =? rows2 b)%nat
  then Some (Ten2 (rows2 a) (cols2 a + cols2 b)
               (fun i k => if (k <? cols2 a)%nat then at2 a i k
                           else at2 b i (k - cols2 a)))
  else None.

(** [x[i]] on a matrix, [i] counted from the front ([i >= 0]) or from the
    back ([i < 0]); [x[i, :, :]] on a rank-3 tensor. *)
Definition index_of (n : nat) (i : Z) : option nat :=
  if (0 <=? i)%Z
  then (if (i <? Z.of_nat n)%Z then Some (Z.to_nat i) else None)
  else (if (- Z.of_nat n <=? i)%Z then Some (Z.to_nat (Z.of_nat n + i)) else None).

Definition select2 {A} (x : ten2 A) (i : Z) : option (ten1 A) :=
  r ← index_of (rows2 x) i;
  Some (Ten1 (cols2 x) (fun j => at2 x r j)).

Definition select3 {A} (x : ten3 A) (i : Z) : option (ten2 A) :=
  r ← index_of (dim0 x) i;
  Some (Ten2 (dim1 x) (dim2 x) (fun j k => at3 x r j k)).

(** [x[t] = v] on a rank-3 tensor: [v] is broadcast to the shape of a
    slice. *)
Definition setitem3 {A} (x : ten3 A) (t : nat) (v : ten2 A) : option (ten3 A) :=
  if (t <? dim0 x)%nat
     && ((rows2 v =? dim1 x)%nat || (rows2 v =? 1)%nat)
     && ((cols2 v =? dim2 x)%nat || (cols2 v =? 1)%nat)
  then Some (Ten3 (dim0 x) (dim1 x) (dim2 x)
               (fun i j k =>
                  if (i =? t)%nat
                  then at2 v (if (rows2 v =? dim1 x)%nat then j else O)
                             (if (cols2 v =? dim2 x)%nat then k else O)
                  else at3 x i j k))
  else None.

(** [torch.tanh], entrywise. *)
Definition tanh2 (x : ten2 R) : ten2 R :=
  Ten2 (rows2 x) (cols2 x) (fun i j => tanh (at2 x i j)).

Definition tanh3 (x : ten3 R) : ten3 R :=
  Ten3 (dim0 x) (dim1 x) (dim2 x) (fun i j k => tanh (at3 x i j k)).

(** [torch.sum(x, dim=2)] and [x.squeeze(-1)] on a rank-3 tensor. *)
Definition sum3_2 (x : ten3 R) : ten2 R :=
  Ten2 (dim0 x) (dim1 x) (fun i j => sumR (dim2 x) (at3 x i j)).

(** [x.squeeze(-1)] on the output of a layer with one output feature.  With
    another last dimension the tensor stays at rank 3. *)
Definition squeeze_last (x : ten3 R) : option (ten2 R) :=
  if (dim2 x =? 1)%nat
  then Some (Ten2 (dim0 x) (dim1 x) (fun i j => at3 x i j O))
  else None.

(** [softmax(x, dim=1)] on a matrix. *)
Definition softmax2_1 (x : ten2 R) : ten2 R :=
  Ten2 (rows2 x) (cols2 x)
       (fun i j => exp (at2 x i j) / sumR (cols2 x) (fun j' => exp (at2 x i j'))).

(** [torch.bmm(a, b)]: batched matrix product of [(B, n, m)] and
    [(B, m, p)]. *)
Definition bmm (a b : ten3 R) : option (ten3 R) :=
  if (dim0 a =? dim0 b)%nat && (dim2 a =? dim1 b)%nat
  then Some (Ten3 (dim0 a) (dim1 a) (dim2 b)
               (fun i j k => sumR (dim2 a) (fun m => at3 a i j m * at3 b i m k)))
  else None.

(** [x.max(1)[1]] on a matrix: for each row the index of its first largest
    entry.  A row without entries has no maximum. *)
Fixpoint argmax_upto (f : nat -> R) (k : nat) : nat :=
  match k with
  | O => O
  | S k' => let m := argmax_upto f k' in
            if Rlt_dec (f m) (f (S k')) then S k' else m
  end.

Definition max1_indices (x : ten2 R) : option (ten1 Z) :=
  if (cols2 x =? 0)%nat then None
  else Some (Ten1 (rows2 x)
               (fun i => Z.of_nat (argmax_upto (at2 x i) (cols2 x - 1)))).

(** *** Layers *)

(** [nn.Embedding.from_pretrained(weights)]: a frozen table, one row per
    id. *)
Record Embedding : Type := {
  emb_weight : ten2 R
}.

Definition from_pretrained (embed_weights : ten2 R) : Embedding :=
  {| emb_weight := embed_weights |}.

Definition id_in_range (E : Embedding) (i : Z) : bool :=
  (0 <=? i)%Z && (i <? Z.of_nat (rows2 (emb_weight E)))%Z.

(** Lookup on a matrix of ids; an id outside the table raises. *)
Definition embedding2 (E : Embedding) (ids : ten2 Z) : option (ten3 R) :=
  if forall_lt (rows2 ids) (fun i =>
       forall_lt (cols2 ids) (fun j => id_in_range E (at2 ids i j)))
  then Some (Ten3 (rows2 ids) (cols2 ids) (cols2 (emb_weight E))
               (fun i j k => at2 (emb_weight E) (Z.to_nat (at2 ids i j)) k))
  else None.

(** [nn.Linear(in_features, out_features)]: [y = x W^T + b] on the last
    axis.  Allocating the weight raises on a negative dimension; a
    dimension may be zero. *)
Record Linear : Type := {
  in_features : nat;
  out_features : nat;
  lin_weight : nat -> nat -> R;
  lin_bias : nat -> R
}.

Definition Linear_init (in_feat out_feat : Z)
    (w : nat -> nat -> R) (b : nat -> R) : option Linear :=
  if (in_feat <? 0)%Z || (out_feat <? 0)%Z then None
  else Some {| in_features := Z.to_nat in_feat;
               out_features := Z.to_nat out_feat;
               lin_weight := w; lin_bias := b |}.

Definition linear_row (L : Linear) (x : nat -> R) (o : nat) : R :=
  sumR (in_features L) (fun k => x k * lin_weight L o k) + lin_bias L o.

Definition linear2 (L : Linear) (x : ten2 R) : option (ten2 R) :=
  if (cols2 x =? in_features L)%nat
  then Some (Ten2 (rows2 x) (out_features L)
               (fun i o => linear_row L (at2 x i) o))
  else None.

Definition linear3 (L : Linear) (x : ten3 R) : option (ten3 R) :=
  if (dim2 x =? in_features L)%nat
  then Some (Ten3 (dim0 x) (dim1 x) (out_features L)
               (fun i j o => linear_row L (at3 x i j) o))
  else None.

(** [nn.Dropout(p)]: the constructor raises unless [0 <= p <= 1].  In
    training mode an entry is kept with probability [1 - p] and scaled by
    [1 / (1 - p)], otherwise zeroed ([p = 1] zeroes everything); in
    evaluation mode the layer is the identity.  The mask says which entries
    are kept. *)
Record Dropout : Type := {
  drop_p : R
}.

Definition Dropout_init (p : R) : option Dropout :=
  if Rlt_dec p 0 then None
  else if Rlt_dec 1 p then None
  else Some {| drop_p := p |}.

Definition drop (p : R) (keep : bool) (v : R) : R :=
  if Req_dec_T p 1 then 0
  else if keep then v / (1 - p) else 0.

Definition mask2 : Type := nat -> nat -> bool.
Definition mask3 : Type := nat -> nat -> nat -> bool.

Definition dropout2 (D : Dropout) (training : bool) (m : mask2)
    (x : ten2 R) : ten2 R :=
  if training
  then Ten2 (rows2 x) (cols2 x) (fun i j => drop (drop_p D) (m i j) (at2 x i j))
  else x.

Definition dropout3 (D : Dropout) (training : bool) (m : mask3)
    (x : ten3 R) : ten3 R :=
  if training
  then Ten3 (dim0 x) (dim1 x) (dim2 x)
            (fun i j k => drop (drop_p D) (m i j k) (at3 x i j k))
  else x.

(** Recurrent layers ([nn.GRU], [nn.LSTM]) belong to the library: a layer
    is its configuration and its forward function, which already holds the
    layer's weights.  The constructors raise on a hidden size, an input
    size or a number of layers that is not positive, and on a dropout
    probability outside [0, 1]. *)
Definition directions (bidirectional : bool) : nat :=
  if bidirectional then 2%nat else 1%nat.

Record GRU : Type := {
  gru_input_size : nat;
  gru_hidden_size : nat;
  gru_bidirectional : bool;
  gru_call : ten3 R -> option (ten3 R) -> option (ten3 R * ten3 R)
}.

Definition GRU_init (input_size hidden_size : Z) (bidirectional : bool)
    (kernel : ten3 R -> option (ten3 R) -> option (ten3 R * ten3 R))
    : option GRU :=
  if (hidden_size <=? 0)%Z || (input_size <=? 0)%Z then None
  else Some {| gru_input_size := Z.to_nat input_size;
               gru_hidden_size := Z.to_nat hidden_size;
               gru_bidirectional := bidirectional;
               gru_call := kernel |}.

Record LSTM : Type := {
  lstm_input_size : nat;
  lstm_hidden_size : nat;
  lstm_num_layers : nat;
  lstm_dropout : R;
  lstm_bidirectional : bool;
  lstm_call : ten3 R -> option (ten3 R * ten3 R) ->
              option (ten3 R * (ten3 R * ten3 R))
}.

End Torch.

Import Torch.

(** ** [cleartext/models/components.py]: the LSTM building blocks *)

Module components.

(** The weights which [utils.init_weights_] leaves in a layer are inputs of
    the constructors. *)
Record Attention : Type := {
  attn_in : Z;
  attn_fc1 : Linear;
  attn_fc2 : Linear;
  attn_dropout : Dropout
}.

Definition Attention_init (enc_units dec_units attn_units : Z) (dropout : R)
    (fc1_w : nat -> nat -> R) (fc1_b : nat -> R)
    (fc2_w : nat -> nat -> R) (fc2_b : nat -> R) : option Attention :=
  let attn_in := (2 * enc_units + dec_units)%Z in
  fc1 ← Linear_init attn_in attn_units fc1_w fc1_b;
  fc2 ← Linear_init attn_units 1 fc2_w fc2_b;
  dropout ← Dropout_init dropout;
  Some {| attn_in := attn_in; attn_fc1 := fc1; attn_fc2 := fc2;
          attn_dropout := dropout |}.

Definition Attention_forward (A : Attention) (training : bool) (m : mask3)
    (dec_state : ten2 R) (enc_outputs : ten3 R) : option (ten2 R) :=
  let source_len := dim0 enc_outputs in
  let dec_state := repeat_1n1 source_len (unsqueeze1_2 dec_state) in
  let enc_outputs := permute102 enc_outputs in
  combined ← cat3_2 dec_state enc_outputs;
  let combined := dropout3 (attn_dropout A) training m combined in
  scores ← linear3 (attn_fc1 A) combined;
  let scores := tanh3 scores in
  scores ← linear3 (attn_fc2 A) scores;
  scores ← squeeze_last scores;
  let weights := softmax2_1 scores in
  Some weights.

Record Decoder : Type := {
  dec_vocab_size : nat;
  dec_embedding : Embedding;
  dec_lstm : LSTM;
  dec_fc : Linear;
  dec_dropout : Dropout
}.

(** The input of the recurrent layer, as [Decoder.forward] builds it: the
    embedded token after dropout, followed by the context vector. *)
Definition Decoder_rnn_input (D : Decoder) (training : bool) (m_emb : mask3)
    (token : ten1 Z) (context : ten3 R) : option (ten3 R * ten3 R) :=
  let token := unsqueeze0_1 token in
  embedded ← embedding2 (dec_embedding D) token;
  let embedded := dropout3 (dec_dropout D) training m_emb embedded in
  rnn_input ← cat3_2 embedded context;
  Some (embedded, rnn_input).

Definition Decoder_forward (D : Decoder) (training : bool)
    (m_emb : mask3) (m_comb : mask2)
    (token : ten1 Z) (context : ten3 R) (dec_hidden dec_cell : ten3 R)
    : option (ten2 R * (ten3 R * ten3 R)) :=
  '(embedded, rnn_input) ← Decoder_rnn_input D training m_emb token context;
  '(output, (dec_hidden, dec_cell)) ←
     lstm_call (dec_lstm D) rnn_input (Some (dec_hidden, dec_cell));
  embedded ← squeeze0 embedded;
  output ← squeeze0 output;
  context ← squeeze0 context;
  combined ← cat2_1 output context;
  combined ← cat2_1 combined embedded;
  let combined := dropout2 (dec_dropout D) training m_comb combined in
  output ← linear2 (dec_fc D) combined;
  Some (output, (dec_hidden, dec_cell)).

Record Encoder : Type := {
  enc_units : Z;
  enc_embed_dim : nat;
  enc_embedding : Embedding;
  enc_dropout : Dropout;
  enc_lstm : LSTM
}.

Definition Encoder_forward (E : Encoder) (training : bool) (m : mask3)
    (source : ten2 Z) : option (ten3 R * (ten3 R * ten3 R)) :=
  embedded ← embedding2 (enc_embedding E) source;
  let embedded := dropout3 (enc_dropout E) training m embedded in
  '(outputs, state) ← lstm_call (enc_lstm E) embedded None;
  let '(hidden, cell) := state in
  Some (outputs, (hidden, cell)).

End components.

(** ** [cleartext/models/encoder_decoder.py]: the GRU model *)

Module encoder_decoder.

Definition rnn_kernel : Type :=
  ten3 R -> option (ten3 R) -> option (ten3 R * ten3 R).

(** What the constructors of the layers draw at random or are given by the
    library: initial weights of the dense layers, forward functions of the
    recurrent layers. *)
Record Init : Type := {
  init_enc_gru : rnn_kernel;
  init_enc_fc_w : nat -> nat -> R;
  init_enc_fc_b : nat -> R;
  init_attn_fc_w : nat -> nat -> R;
  init_attn_fc_b : nat -> R;
  init_dec_rnn : rnn_kernel;
  init_dec_fc_w : nat -> nat -> R;
  init_dec_fc_b : nat -> R
}.

(** The random inputs of one forward pass: the value of [random.random()]
    in iteration [t], and the dropout masks of the encoder and of the
    attention and decoder calls of iteration [t]. *)
Record Rng : Type := {
  random_random : nat -> R;
  enc_mask : mask2;
  attn_mask : nat -> mask3;
  dec_mask : nat -> mask2
}.

Inductive device : Type := cpu | cuda.

Definition to {A} (x : A) (d : device) : A := x.

Record Encoder : Type := {
  enc_embedding : Embedding;
  enc_gru : GRU;
  enc_fc : Linear;
  enc_dropout : Dropout
}.

Definition Encoder_init (embed_weights : ten2 R) (units : Z) (dropout : R)
    (i : Init) : option Encoder :=
  let embedding := from_pretrained embed_weights in
  let embed_dim := Z.of_nat (cols2 embed_weights) in
  gru ← GRU_init embed_dim units true (init_enc_gru i);
  fc ← Linear_init (units * 2) units (init_enc_fc_w i) (init_enc_fc_b i);
  dropout ← Dropout_init dropout;
  Some {| enc_embedding := embedding; enc_gru := gru; enc_fc := fc;
          enc_dropout := dropout |}.

Definition Encoder_forward (E : Encoder) (training : bool) (m : mask2)
    (source : ten2 Z) : option (ten3 R * ten2 R) :=
  embedded ← embedding2 (enc_embedding E) source;
  '(outputs, state) ← gru_call (enc_gru E) embedded None;
  s_fwd ← select3 state (-2);
  s_bwd ← select3 state (-1);
  combined ← cat2_1 s_fwd s_bwd;
  let combined := dropout2 (enc_dropout E) training m combined in
  state ← linear2 (enc_fc E) combined;
  let state := tanh2 state in
  Some (outputs, state).

Record Attention : Type := {
  attn_in : Z;
  attn_fc : Linear;
  attn_dropout : Dropout
}.

Definition Attention_init (state_dim units : Z) (dropout : R) (i : Init)
    : option Attention :=
  let attn_in := (state_dim * 3)%Z in
  fc ← Linear_init attn_in units (init_attn_fc_w i) (init_attn_fc_b i);
  dropout ← Dropout_init dropout;
  Some {| attn_in := attn_in; attn_fc := fc; attn_dropout := dropout |}.

Definition Attention_forward (A : Attention) (training : bool) (m : mask3)
    (dec_state : ten2 R) (enc_outputs : ten3 R) : option (ten2 R) :=
  let source_len := dim0 enc_outputs in
  let dec_state := repeat_1n1 source_len (unsqueeze1_2 dec_state) in
  let enc_outputs := permute102 enc_outputs in
  combined ← cat3_2 dec_state enc_outputs;
  let combined := dropout3 (attn_dropout A) training m combined in
  scores ← linear3 (attn_fc A) combined;
  let scores := tanh3 scores in
  let scores := sum3_2 scores in
  let weights := softmax2_1 scores in
  Some weights.

Record Decoder : Type := {
  dec_embedding : Embedding;
  dec_vocab_size : nat;
  dec_rnn : GRU;
  dec_fc : Linear;
  dec_dropout : Dropout
}.

Definition Decoder_init (embed_weights : ten2 R) (units context_size : Z)
    (dropout : R) (i : Init) : option Decoder :=
  let embedding := from_pretrained embed_weights in
  let vocab_size := rows2 embed_weights in
  let embed_dim := Z.of_nat (cols2 embed_weights) in
  rnn ← GRU_init (units * 2 + embed_dim) units false (init_dec_rnn i);
  fc ← Linear_init (units + context_size + embed_dim) (Z.of_nat vocab_size)
         (init_dec_fc_w i) (init_dec_fc_b i);
  dropout ← Dropout_init dropout;
  Some {| dec_embedding := embedding; dec_vocab_size := vocab_size;
          dec_rnn := rnn; dec_fc := fc; dec_dropout := dropout |}.

(** The input of the recurrent layer, as [Decoder.forward] builds it: the
    embedded token followed by the context vector. *)
Definition Decoder_rnn_input (D : Decoder) (token : ten1 Z) (context : ten3 R)
    : option (ten3 R * ten3 R) :=
  let token := unsqueeze0_1 token in
  embedded ← embedding2 (dec_embedding D) token;
  rnn_input ← cat3_2 embedded context;
  Some (embedded, rnn_input).

Definition Decoder_forward (D : Decoder) (training : bool) (m : mask2)
    (token : ten1 Z) (dec_state : ten2 R) (context : ten3 R)
    : option (ten2 R * ten2 R) :=
  '(embedded, rnn_input) ← Decoder_rnn_input D token context;
  '(output, dec_state) ←
     gru_call (dec_rnn D) rnn_input (Some (unsqueeze0_2 dec_state));
  embedded ← squeeze0 embedded;
  output ← squeeze0 output;
  context ← squeeze0 context;
  combined ← cat2_1 output context;
  combined ← cat2_1 combined embedded;
  let combined := dropout2 (dec_dropout D) training m combined in
  output ← linear2 (dec_fc D) combined;
  dec_state ← squeeze0 dec_state;
  Some (output, dec_state).

Record EncoderDecoder : Type := {
  encoder : Encoder;
  attention : Attention;
  decoder : Decoder;
  model_device : device;
  target_vocab_size : nat
}.

Definition EncoderDecoder_init (dev : device)
    (embed_weights_src embed_weights_trg : ten2 R)
    (rnn_units attn_units : Z) (dropout : R) (i : Init)
    : option EncoderDecoder :=
  encoder ← Encoder_init embed_weights_src rnn_units dropout i;
  attention ← Attention_init rnn_units attn_units 0 i;
  decoder ← Decoder_init embed_weights_trg rnn_units (2 * rnn_units) dropout i;
  Some {| encoder := encoder; attention := attention; decoder := decoder;
          model_device := dev;
          target_vocab_size := dec_vocab_size decoder |}.

Definition _compute_context (M : EncoderDecoder) (training : bool) (m : mask3)
    (dec_state : ten2 R) (enc_outputs : ten3 R) : option (ten3 R) :=
  weights ← Attention_forward (attention M) training m dec_state enc_outputs;
  let weights := unsqueeze1_2 weights in
  let enc_outputs := permute102 enc_outputs in
  product ← bmm weights enc_outputs;
  Some (permute102 product).

(** The variables of the decoding loop. *)
Record loop_state : Type := {
  ls_outputs : ten3 R;
  ls_out : ten1 Z;
  ls_state : ten2 R
}.

(** One iteration of [for t in range(1, max_len)]. *)
Definition loop_body (M : EncoderDecoder) (training : bool) (rng : Rng)
    (enc_outputs : ten3 R) (target : ten2 Z) (teacher_forcing : R)
    (t : nat) (ls : loop_state) : option loop_state :=
  context ← _compute_context M training (attn_mask rng t)
              (ls_state ls) enc_outputs;
  '(out, state) ← Decoder_forward (decoder M) training (dec_mask rng t)
                    (ls_out ls) (ls_state ls) context;
  outputs ← setitem3 (ls_outputs ls) t out;
  let teacher_force :=
    if Rlt_dec (random_random rng t) teacher_forcing then true else false in
  out ← (if teacher_force then select2 target (Z.of_nat t)
         else max1_indices out);
  Some {| ls_outputs := outputs; ls_out := out; ls_state := state |}.

Fixpoint loop (body : nat -> loop_state -> option loop_state)
    (steps : list nat) (ls : loop_state) : option loop_state :=
  match steps with
  | nil => Some ls
  | t :: rest => ls' ← body t ls; loop body rest ls'
  end.

Definition forward (M : EncoderDecoder) (training : bool) (rng : Rng)
    (source : ten2 Z) (target : ten2 Z) (teacher_forcing : R)
    : option (ten3 R) :=
  let batch_size := cols2 source in
  let max_len := rows2 target in
  '(enc_outputs, state) ← Encoder_forward (encoder M) training (enc_mask rng)
                            source;
  let outputs :=
    to (zeros3 max_len batch_size (target_vocab_size M)) (model_device M) in
  out ← select2 target 0;
  ls ← loop (loop_body M training rng enc_outputs target teacher_forcing)
         (seq 1 (max_len - 1))
         {| ls_outputs := outputs; ls_out := out; ls_state := state |};
  Some (ls_outputs ls).

(** The loop variables after the first [n] iterations, that is, as
    iteration [n + 1] finds them. *)
Definition rollout (M : EncoderDecoder) (training : bool) (rng : Rng)
    (source : ten2 Z) (target : ten2 Z) (teacher_forcing : R) (n : nat)
    : option (ten3 R * loop_state) :=
  '(enc_outputs, state) ← Encoder_forward (encoder M) training (enc_mask rng)
                            source;
  out ← select2 target 0;
  ls ← loop (loop_body M training rng enc_outputs target teacher_forcing)
         (seq 1 n)
         {| ls_outputs :=
              to (zeros3 (rows2 target) (cols2 source) (target_vocab_size M))
                 (model_device M);
            ls_out := out; ls_state := state |};
  Some (enc_outputs, ls).

End encoder_decoder.

(** ** Predicates used in the statements *)

Module Spec.

(** Every entry of the matrix is non-negative. *)
Definition nonneg_entries (w : ten2 R) : Prop :=
  forall b s, (b < rows2 w)%nat -> (s < cols2 w)%nat -> 0 <= at2 w b s.

(** Every row of the matrix sums to 1. *)
Definition rows_sum_to_one (w : ten2 R) : Prop :=
  forall b, (b < rows2 w)%nat -> sumR (cols2 w) (at2 w b) = 1.

(** Every id of the matrix is a row of a table with [n] rows. *)
Definition ids_in_range (ids : ten2 Z) (n : nat) : Prop :=
  forall i j, (i < rows2 ids)%nat -> (j < cols2 ids)%nat ->
    (0 <= at2 ids i j < Z.of_nat n)%Z.

(** The shapes which a single-layer [nn.GRU] returns on a sequence with at
    least one position and one batch element: outputs
    [(seq_len, batch, directions * hidden_size)] and a final state
    [(directions, batch, hidden_size)], provided the input has
    [input_size] features and the initial state, when given, has the shape
    of the final state. *)
Definition GRU_contract (g : GRU) : Prop :=
  forall x h0,
    (1 <= dim0 x)%nat -> (1 <= dim1 x)%nat ->
    dim2 x = gru_input_size g ->
    match h0 with
    | None => True
    | Some h => shape3 h = (directions (gru_bidirectional g), dim1 x,
                            gru_hidden_size g)
    end ->
    exists o h,
      gru_call g x h0 = Some (o, h) /\
      shape3 o = (dim0 x, dim1 x,
                  (directions (gru_bidirectional g) * gru_hidden_size g)%nat) /\
      shape3 h = (directions (gru_bidirectional g), dim1 x, gru_hidden_size g).

(** The dimensions of the layers of a model built for [u] recurrent units
    from the embedding tables [Ws] (source) and [Wt] (target). *)
Record model_dims (M : encoder_decoder.EncoderDecoder) (u : nat)
    (Ws Wt : ten2 R) : Prop := {
  md_units : (1 <= u)%nat;
  md_enc_emb :
    encoder_decoder.enc_embedding (encoder_decoder.encoder M)
      = from_pretrained Ws;
  md_enc_gru_in :
    gru_input_size (encoder_decoder.enc_gru (encoder_decoder.encoder M))
      = cols2 Ws;
  md_enc_gru_hidden :
    gru_hidden_size (encoder_decoder.enc_gru (encoder_decoder.encoder M)) = u;
  md_enc_gru_bidirectional :
    gru_bidirectional (encoder_decoder.enc_gru (encoder_decoder.encoder M))
      = true;
  md_enc_fc_in :
    in_features (encoder_decoder.enc_fc (encoder_decoder.encoder M))
      = (2 * u)%nat;
  md_enc_fc_out :
    out_features (encoder_decoder.enc_fc (encoder_decoder.encoder M)) = u;
  md_attn_fc_in :
    in_features (encoder_decoder.attn_fc (encoder_decoder.attention M))
      = (3 * u)%nat;
  md_dec_emb :
    encoder_decoder.dec_embedding (encoder_decoder.decoder M)
      = from_pretrained Wt;
  md_dec_rnn_in :
    gru_input_size (encoder_decoder.dec_rnn (encoder_decoder.decoder M))
      = (2 * u + cols2 Wt)%nat;
  md_dec_rnn_hidden :
    gru_hidden_size (encoder_decoder.dec_rnn (encoder_decoder.decoder M)) = u;
  md_dec_rnn_bidirectional :
    gru_bidirectional (encoder_decoder.dec_rnn (encoder_decoder.decoder M))
      = false;
  md_dec_fc_in :
    in_features (encoder_decoder.dec_fc (encoder_decoder.decoder M))
      = (u + 2 * u + cols2 Wt)%nat;
  md_dec_fc_out :
    out_features (encoder_decoder.dec_fc (encoder_decoder.decoder M))
      = rows2 Wt;
  md_vocab : encoder_decoder.target_vocab_size M = rows2 Wt
}.

(** The additive score of one source position for one batch element, as
    the summation variant forms it: the sum, over the outputs [o] of the
    dense layer [L], of the hyperbolic tangent of
    [W_o . (h ; e) + bias_o], where [h] are the [d] features of the decoder
    state and [e] the [n] features of the encoder output. *)
Definition summation_score (L : Linear) (d n : nat) (h e : nat -> R) : R :=
  sumR (out_features L)
    (fun o => tanh (sumR d (fun k => h k * lin_weight L o k)
                    + sumR n (fun k => e k * lin_weight L o (d + k))
                    + lin_bias L o)).

(** The shapes and the range of the loop variables of a rollout with
    [T] target positions, [B] batch elements, [V] target ids and [u]
    recurrent units. *)
Definition loop_shapes (T B V u : nat) (ls : encoder_decoder.loop_state)
    : Prop :=
  shape3 (encoder_decoder.ls_outputs ls) = (T, B, V) /\
  len1 (encoder_decoder.ls_out ls) = B /\
  (forall j, (j < B)%nat ->
     (0 <= at1 (encoder_decoder.ls_out ls) j < Z.of_nat V)%Z) /\
  shape2 (encoder_decoder.ls_state ls) = (B, u).

End Spec.

(** ** Concrete instances *)

Module Examples.

Definition lin_ones (n_in n_out : nat) : Linear :=
  {| in_features := n_in; out_features := n_out;
     lin_weight := fun _ _ => 1; lin_bias := fun _ => 0 |}.

Definition no_dropout : Dropout := {| drop_p := 0 |}.

Definition keep_all3 : mask3 := fun _ _ _ => true.
Definition keep_all2 : mask2 := fun _ _ => true.
Definition drop_all3 : mask3 := fun _ _ _ => false.

(** A decoder state for one batch element and one unit. *)
Definition state_1x1 : ten2 R := Ten2 1 1 (fun _ _ => 0).

(** Encoder outputs for an empty source, and for a source of two
    positions, with one batch element and two features each. *)
Definition enc_outputs_empty : ten3 R := Ten3 0 1 2 (fun _ _ _ => 0).
Definition enc_outputs_two : ten3 R :=
  Ten3 2 1 2 (fun s _ k => INR s + INR k).

Definition gru_attention : encoder_decoder.Attention :=
  {| encoder_decoder.attn_in := 3;
     encoder_decoder.attn_fc := lin_ones 3 4;
     encoder_decoder.attn_dropout := no_dropout |}.

Definition lstm_attention : components.Attention :=
  {| components.attn_in := 3;
     components.attn_fc1 := lin_ones 3 4;
     components.attn_fc2 := lin_ones 4 1;
     components.attn_dropout := {| drop_p := / 2 |} |}.

(** A recurrent kernel with the shapes of [nn.GRU]: every output feature
    of a position is the first input feature of that position, and the
    final state is all zeros. *)
Definition toy_kernel (input_size hidden dirs : nat) : encoder_decoder.rnn_kernel :=
  fun x h0 =>
    if (dim2 x =? input_size)%nat
       && match h0 with
          | None => true
          | Some h => (dim0 h =? dirs)%nat && (dim1 h =? dim1 x)%nat
                      && (dim2 h =? hidden)%nat
          end
    then Some (Ten3 (dim0 x) (dim1 x) (dirs * hidden) (fun s b _ => at3 x s b O),
               Ten3 dirs (dim1 x) hidden (fun _ _ _ => 0))
    else None.

(** A kernel that always raises. *)
Definition failing_kernel : encoder_decoder.rnn_kernel := fun _ _ => None.

(** Embedding tables: three source ids and two target ids, one feature
    each; the feature of id [i] is [i]. *)
Definition table (n : nat) : ten2 R := Ten2 n 1 (fun i _ => INR i).

Definition toy_init : encoder_decoder.Init :=
  {| encoder_decoder.init_enc_gru := toy_kernel 1 1 2;
     encoder_decoder.init_enc_fc_w := fun _ _ => 1;
     encoder_decoder.init_enc_fc_b := fun _ => 0;
     encoder_decoder.init_attn_fc_w := fun _ _ => 1;
     encoder_decoder.init_attn_fc_b := fun _ => 0;
     encoder_decoder.init_dec_rnn := toy_kernel 3 1 1;
     encoder_decoder.init_dec_fc_w := fun o _ => INR o;
     encoder_decoder.init_dec_fc_b := fun _ => 0 |}.

(** The model which [EncoderDecoder(cpu, table 3, table 2, rnn_units=1,
    attn_units=2, dropout=1/2)] builds from [toy_init]. *)
Definition toy_model : encoder_decoder.EncoderDecoder :=
  {| encoder_decoder.encoder :=
       {| encoder_decoder.enc_embedding := from_pretrained (table 3);
          encoder_decoder.enc_gru :=
            {| gru_input_size := 1; gru_hidden_size := 1;
               gru_bidirectional := true; gru_call := toy_kernel 1 1 2 |};
          encoder_decoder.enc_fc := lin_ones 2 1;
          encoder_decoder.enc_dropout := {| drop_p := / 2 |} |};
     encoder_decoder.attention :=
       {| encoder_decoder.attn_in := 3;
          encoder_decoder.attn_fc := lin_ones 3 2;
          encoder_decoder.attn_dropout := no_dropout |};
     encoder_decoder.decoder :=
       {| encoder_decoder.dec_embedding := from_pretrained (table 2);
          encoder_decoder.dec_vocab_size := 2;
          encoder_decoder.dec_rnn :=
            {| gru_input_size := 3; gru_hidden_size := 1;
               gru_bidirectional := false; gru_call := toy_kernel 3 1 1 |};
          encoder_decoder.dec_fc :=
            {| in_features := 4; out_features := 2;
               lin_weight := fun o _ => INR o; lin_bias := fun _ => 0 |};
          encoder_decoder.dec_dropout := {| drop_p := / 2 |} |};
     encoder_decoder.model_device := encoder_decoder.cpu;
     encoder_decoder.target_vocab_size := 2 |}.

(** The example model with a decoder whose recurrent layer raises on
    every call. *)
Definition broken_decoder_model : encoder_decoder.EncoderDecoder :=
  {| encoder_decoder.encoder := encoder_decoder.encoder toy_model;
     encoder_decoder.attention := encoder_decoder.attention toy_model;
     encoder_decoder.decoder :=
       {| encoder_decoder.dec_embedding := from_pretrained (table 2);
          encoder_decoder.dec_vocab_size := 2;
          encoder_decoder.dec_rnn :=
            {| gru_input_size := 3; gru_hidden_size := 1;
               gru_bidirectional := false; gru_call := failing_kernel |};
          encoder_decoder.dec_fc :=
            encoder_decoder.dec_fc (encoder_decoder.decoder toy_model);
          encoder_decoder.dec_dropout := {| drop_p := / 2 |} |};
     encoder_decoder.model_device := encoder_decoder.cpu;
     encoder_decoder.target_vocab_size := 2 |}.

(** The model which [EncoderDecoder(cpu, table 3, table 2, rnn_units=1,
    attn_units=0, dropout=1/2)] builds from [toy_init]. *)
Definition no_attn_units_model : encoder_decoder.EncoderDecoder :=
  {| encoder_decoder.encoder := encoder_decoder.encoder toy_model;
     encoder_decoder.attention :=
       {| encoder_decoder.attn_in := 3;
          encoder_decoder.attn_fc := lin_ones 3 0;
          encoder_decoder.attn_dropout := no_dropout |};
     encoder_decoder.decoder := encoder_decoder.decoder toy_model;
     encoder_decoder.model_device := encoder_decoder.cpu;
     encoder_decoder.target_vocab_size := 2 |}.

(** An LSTM decoder over two target ids with one feature, and a kernel
    with the shapes of a single-layer [nn.LSTM]. *)
Definition toy_lstm_kernel (input_size hidden : nat)
    : ten3 R -> option (ten3 R * ten3 R) -> option (ten3 R * (ten3 R * ten3 R)) :=
  fun x _ =>
    if (dim2 x =? input_size)%nat
    then Some (Ten3 (dim0 x) (dim1 x) hidden (fun s b _ => at3 x s b O),
               (Ten3 1 (dim1 x) hidden (fun _ _ _ => 0),
                Ten3 1 (dim1 x) hidden (fun _ _ _ => 0)))
    else None.

Definition lstm_decoder : components.Decoder :=
  {| components.dec_vocab_size := 2;
     components.dec_embedding := from_pretrained (table 2);
     components.dec_lstm :=
       {| lstm_input_size := 3; lstm_hidden_size := 1; lstm_num_layers := 1;
          lstm_dropout := / 2; lstm_bidirectional := false;
          lstm_call := toy_lstm_kernel 3 1 |};
     components.dec_fc := lin_ones 4 2;
     components.dec_dropout := {| drop_p := / 2 |} |}.

(** One batch element holding token 1, and a context of two zeros. *)
Definition token_1 : ten1 Z := Ten1 1 (fun _ => 1%Z).
Definition context_1x1x2 : ten3 R := Ten3 1 1 2 (fun _ _ _ => 0).

(** An LSTM encoder over three source ids with one feature. *)
Definition lstm_encoder : components.Encoder :=
  {| components.enc_units := 1;
     components.enc_embed_dim := 1;
     components.enc_embedding := from_pretrained (table 3);
     components.enc_dropout := {| drop_p := / 2 |};
     components.enc_lstm :=
       {| lstm_input_size := 1; lstm_hidden_size := 1; lstm_num_layers := 1;
          lstm_dropout := / 2; lstm_bidirectional := true;
          lstm_call := toy_lstm_kernel 1 1 |} |}.

(** A source whose second position holds id 7, outside a table of three
    rows; a batch of one token 9; a target without positions; a target of
    two positions for two batch elements. *)
Definition source_bad : ten2 Z :=
  Ten2 2 1 (fun i _ => if (i =? 1)%nat then 7%Z else 0%Z).
Definition token_9 : ten1 Z := Ten1 1 (fun _ => 9%Z).
Definition target_0x1 : ten2 Z := Ten2 0 1 (fun _ _ => 0%Z).
Definition target_2x2 : ten2 Z := Ten2 2 2 (fun _ _ => 0%Z).
Definition target_bad_seed : ten2 Z :=
  Ten2 2 1 (fun i _ => if (i =? 0)%nat then 9%Z else 0%Z).

(** A source of two positions and a target of three, one batch element
    each. *)
Definition source_2x1 : ten2 Z := Ten2 2 1 (fun i _ => Z.of_nat i).
Definition target_3x1 : ten2 Z :=
  Ten2 3 1 (fun i _ => if (i =? 0)%nat then 0%Z else 1%Z).
Definition target_1x1 : ten2 Z := Ten2 1 1 (fun _ _ => 0%Z).

(** Draws of [random.random()] that are all [0] and all [1/2], with
    dropout masks that keep every entry. *)
Definition rng_const (d : R) : encoder_decoder.Rng :=
  {| encoder_decoder.random_random := fun _ => d;
     encoder_decoder.enc_mask := keep_all2;
     encoder_decoder.attn_mask := fun _ => keep_all3;
     encoder_decoder.dec_mask := fun _ => keep_all2 |}.

End Examples.

(** * Properties *)

(** ** Finite sums *)

Section Sums.

Lemma sumR_ext (n : nat) (f g : nat -> R) :
  (forall i, (i < n)%nat -> f i = g i) -> sumR n f = sumR n g.
Proof.
  induction n as [|n IH]; intros Hfg; simpl.
  - reflexivity.
  - rewrite IH by (intros i Hi; apply Hfg; lia).
    rewrite (Hfg n) by lia. reflexivity.
Qed.

Lemma sumR_nonneg (n : nat) (f : nat -> R) :
  (forall i, (i < n)%nat -> 0 <= f i) -> 0 <= sumR n f.
Proof.
  induction n as [|n IH]; intros Hf; simpl.
  - lra.
  - assert (0 <= sumR n f) by (apply IH; intros i Hi; apply Hf; lia).
    assert (0 <= f n) by (apply Hf; lia). lra.
Qed.

Lemma sumR_pos (n : nat) (f : nat -> R) :
  (1 <= n)%nat -> (forall i, (i < n)%nat -> 0 < f i) -> 0 < sumR n f.
Proof.
  intros Hn Hf. destruct n as [|n]; [lia|]. simpl.
  assert (0 <= sumR n f).
  { apply sumR_nonneg. intros i Hi. apply Rlt_le, Hf. lia. }
  assert (0 < f n) by (apply Hf; lia). lra.
Qed.

Lemma sumR_scale (n : nat) (f : nat -> R) (c : R) :
  sumR n (fun i => f i * c) = sumR n f * c.
Proof.
  induction n as [|n IH]; simpl.
  - lra.
  - rewrite IH. lra.
Qed.

Lemma sumR_le (n : nat) (f g : nat -> R) :
  (forall i, (i < n)%nat -> f i <= g i) -> sumR n f <= sumR n g.
Proof.
  induction n as [|n IH]; intros Hfg; simpl.
  - lra.
  - assert (sumR n f <= sumR n g) by (apply IH; intros i Hi; apply Hfg; lia).
    assert (f n <= g n) by (apply Hfg; lia). lra.
Qed.

Lemma minR_le (n : nat) (f : nat -> R) (i : nat) :
  (i <= n)%nat -> minR n f <= f i.
Proof.
  induction n as [|n IH]; intros Hi; simpl.
  - replace i with O by lia. lra.
  - destruct (Nat.eq_dec i (S n)) as [->|Hne].
    + apply Rmin_r.
    + eapply Rle_trans; [apply Rmin_l|]. apply IH. lia.
Qed.

Lemma maxR_ge (n : nat) (f : nat -> R) (i : nat) :
  (i <= n)%nat -> f i <= maxR n f.
Proof.
  induction n as [|n IH]; intros Hi; simpl.
  - replace i with O by lia. lra.
  - destruct (Nat.eq_dec i (S n)) as [->|Hne].
    + apply Rmax_r.
    + eapply Rle_trans; [|apply Rmax_l]. apply IH. lia.
Qed.

(** A combination with non-negative weights of total 1 stays between any
    two bounds of the combined values. *)
Lemma sumR_convex (n : nat) (w x : nat -> R) (lo hi : R) :
  (forall i, (i < n)%nat -> 0 <= w i) ->
  sumR n w = 1 ->
  (forall i, (i < n)%nat -> lo <= x i <= hi) ->
  lo <= sumR n (fun i => w i * x i) <= hi.
Proof.
  intros Hw Hsum Hx. split.
  - replace lo with (sumR n w * lo) by (rewrite Hsum; lra).
    rewrite <- sumR_scale. apply sumR_le. intros i Hi.
    apply Rmult_le_compat_l; [apply Hw, Hi | apply Hx, Hi].
  - replace hi with (sumR n w * hi) by (rewrite Hsum; lra).
    rewrite <- sumR_scale. apply sumR_le. intros i Hi.
    apply Rmult_le_compat_l; [apply Hw, Hi | apply Hx, Hi].
Qed.

End Sums.

(** ** Softmax *)

Section Softmax.

Lemma softmax_shape (x : ten2 R) :
  rows2 (softmax2_1 x) = rows2 x /\ cols2 (softmax2_1 x) = cols2 x.
Proof. split; reflexivity. Qed.

Lemma softmax_nonneg (x : ten2 R) (i j : nat) :
  (j < cols2 x)%nat -> 0 <= at2 (softmax2_1 x) i j.
Proof.
  intros Hj. simpl. apply Rlt_le, Rdiv_lt_0_compat; [apply exp_pos|].
  apply sumR_pos; [lia|]. intros; apply exp_pos.
Qed.

Lemma softmax_row_sum (x : ten2 R) (i : nat) :
  (1 <= cols2 x)%nat ->
  sumR (cols2 (softmax2_1 x)) (at2 (softmax2_1 x) i) = 1.
Proof.
  intros Hc. simpl. unfold Rdiv. rewrite sumR_scale.
  apply Rinv_r, Rgt_not_eq, Rlt_gt.
  apply sumR_pos; [lia|]. intros; apply exp_pos.
Qed.

Lemma softmax_empty_row (x : ten2 R) (i : nat) :
  cols2 x = O -> sumR (cols2 (softmax2_1 x)) (at2 (softmax2_1 x) i) = 0.
Proof. intros Hc. simpl. rewrite Hc. reflexivity. Qed.

End Softmax.

(** ** Shapes of the results of the tensor operations *)

Section Shapes.

Lemma cat3_2_inv {A} (a b c : ten3 A) :
  cat3_2 a b = Some c ->
  dim0 a = dim0 b /\ dim1 a = dim1 b /\
  dim0 c = dim0 a /\ dim1 c = dim1 a /\ dim2 c = (dim2 a + dim2 b)%nat /\
  at3 c = (fun i j k => if (k <? dim2 a)%nat then at3 a i j k
                        else at3 b i j (k - dim2 a)).
Proof.
  unfold cat3_2. intros H.
  destruct (dim0 a =? dim0 b)%nat eqn:E0; [|discriminate].
  destruct (dim1 a =? dim1 b)%nat eqn:E1; [|discriminate].
  apply Nat.eqb_eq in E0, E1. simpl in H. injection H as <-. simpl. tauto.
Qed.

Lemma cat3_2_some {A} (a b : ten3 A) :
  dim0 a = dim0 b -> dim1 a = dim1 b -> exists c, cat3_2 a b = Some c.
Proof.
  intros H0 H1. unfold cat3_2. rewrite H0, H1, !Nat.eqb_refl. simpl. eauto.
Qed.

Lemma cat2_1_inv {A} (a b c : ten2 A) :
  cat2_1 a b = Some c ->
  rows2 a = rows2 b /\ rows2 c = rows2 a /\ cols2 c = (cols2 a + cols2 b)%nat.
Proof.
  unfold cat2_1. intros H.
  destruct (rows2 a =? rows2 b)%nat eqn:E0; [|discriminate].
  apply Nat.eqb_eq in E0. injection H as <-. simpl. tauto.
Qed.

Lemma cat2_1_some {A} (a b : ten2 A) :
  rows2 a = rows2 b -> exists c, cat2_1 a b = Some c.
Proof. intros H. unfold cat2_1. rewrite H, Nat.eqb_refl. eauto. Qed.

Lemma linear3_inv (L : Linear) (x y : ten3 R) :
  linear3 L x = Some y ->
  dim2 x = in_features L /\
  dim0 y = dim0 x /\ dim1 y = dim1 x /\ dim2 y = out_features L.
Proof.
  unfold linear3. intros H.
  destruct (dim2 x =? in_features L)%nat eqn:E; [|discriminate].
  apply Nat.eqb_eq in E. injection H as <-. simpl. tauto.
Qed.

Lemma linear3_some (L : Linear) (x : ten3 R) :
  dim2 x = in_features L -> exists y, linear3 L x = Some y.
Proof. intros H. unfold linear3. rewrite H, Nat.eqb_refl. eauto. Qed.

Lemma linear2_inv (L : Linear) (x y : ten2 R) :
  linear2 L x = Some y ->
  cols2 x = in_features L /\ rows2 y = rows2 x /\ cols2 y = out_features L.
Proof.
  unfold linear2. intros H.
  destruct (cols2 x =? in_features L)%nat eqn:E; [|discriminate].
  apply Nat.eqb_eq in E. injection H as <-. simpl. tauto.
Qed.

Lemma linear2_some (L : Linear) (x : ten2 R) :
  cols2 x = in_features L -> exists y, linear2 L x = Some y.
Proof. intros H. unfold linear2. rewrite H, Nat.eqb_refl. eauto. Qed.

Lemma dropout3_shape (D : Dropout) (training : bool) (m : mask3) (x : ten3 R) :
  dim0 (dropout3 D training m x) = dim0 x /\
  dim1 (dropout3 D training m x) = dim1 x /\
  dim2 (dropout3 D training m x) = dim2 x.
Proof. destruct training; simpl; tauto. Qed.

Lemma dropout2_shape (D : Dropout) (training : bool) (m : mask2) (x : ten2 R) :
  rows2 (dropout2 D training m x) = rows2 x /\
  cols2 (dropout2 D training m x) = cols2 x.
Proof. destruct training; simpl; tauto. Qed.

Lemma squeeze_last_inv (x : ten3 R) (y : ten2 R) :
  squeeze_last x = Some y ->
  dim2 x = 1%nat /\ rows2 y = dim0 x /\ cols2 y = dim1 x.
Proof.
  unfold squeeze_last. intros H.
  destruct (dim2 x =? 1)%nat eqn:E; [|discriminate].
  apply Nat.eqb_eq in E. injection H as <-. simpl. tauto.
Qed.

Lemma squeeze0_inv {A} (x : ten3 A) (y : ten2 A) :
  squeeze0 x = Some y ->
  dim0 x = 1%nat /\ rows2 y = dim1 x /\ cols2 y = dim2 x /\
  at2 y = at3 x O.
Proof.
  unfold squeeze0. intros H.
  destruct (dim0 x =? 1)%nat eqn:E; [|discriminate].
  apply Nat.eqb_eq in E. injection H as <-. simpl. tauto.
Qed.

Lemma Linear_init_inv (n_in n_out : Z) w b (L : Linear) :
  Linear_init n_in n_out w b = Some L ->
  (0 <= n_in)%Z /\ (0 <= n_out)%Z /\
  in_features L = Z.to_nat n_in /\ out_features L = Z.to_nat n_out.
Proof.
  unfold Linear_init. intros H.
  destruct (n_in <? 0)%Z eqn:E1; [discriminate|].
  destruct (n_out <? 0)%Z eqn:E2; [discriminate|].
  apply Z.ltb_ge in E1, E2. injection H as <-. simpl. tauto.
Qed.

End Shapes.

(** ** Attention weights *)

Section AttentionWeights.

(** The summation variant returns the softmax of a score matrix with one
    row per batch element and one column per source position. *)
Lemma gru_attention_inv (A : encoder_decoder.Attention) training m
    (dec_state : ten2 R) (enc_outputs : ten3 R) (w : ten2 R) :
  encoder_decoder.Attention_forward A training m dec_state enc_outputs = Some w ->
  exists scores, w = softmax2_1 scores /\
    rows2 scores = rows2 dec_state /\ cols2 scores = dim0 enc_outputs.
Proof.
  unfold encoder_decoder.Attention_forward. intros H.
  destruct (cat3_2 _ _) as [c|] eqn:Hc; [|discriminate]. simpl in H.
  destruct (linear3 _ _) as [l|] eqn:Hl; [|discriminate]. simpl in H.
  injection H as <-.
  apply cat3_2_inv in Hc. apply linear3_inv in Hl.
  destruct (dropout3_shape (encoder_decoder.attn_dropout A) training m c)
    as (D0 & D1 & D2).
  eexists; split; [reflexivity|]. simpl in *. split; lia.
Qed.

(** So does the variant with a learned projection. *)
Lemma lstm_attention_inv (A : components.Attention) training m
    (dec_state : ten2 R) (enc_outputs : ten3 R) (w : ten2 R) :
  components.Attention_forward A training m dec_state enc_outputs = Some w ->
  exists scores, w = softmax2_1 scores /\
    rows2 scores = rows2 dec_state /\ cols2 scores = dim0 enc_outputs.
Proof.
  unfold components.Attention_forward. intros H.
  destruct (cat3_2 _ _) as [c|] eqn:Hc; [|discriminate]. simpl in H.
  destruct (linear3 (components.attn_fc1 A) _) as [l|] eqn:Hl; [|discriminate].
  simpl in H.
  destruct (linear3 (components.attn_fc2 A) _) as [l2|] eqn:Hl2; [|discriminate].
  simpl in H.
  destruct (squeeze_last l2) as [q|] eqn:Hq; [|discriminate]. simpl in H.
  injection H as <-.
  apply cat3_2_inv in Hc. apply linear3_inv in Hl, Hl2.
  apply squeeze_last_inv in Hq.
  destruct (dropout3_shape (components.attn_dropout A) training m c)
    as (D0 & D1 & D2).
  eexists; split; [reflexivity|]. simpl in *. split; lia.
Qed.

Lemma softmax_distribution (scores : ten2 R) :
  Spec.nonneg_entries (softmax2_1 scores) /\
  ((1 <= cols2 scores)%nat -> Spec.rows_sum_to_one (softmax2_1 scores)).
Proof.
  split.
  - intros b s _ Hs. apply softmax_nonneg. exact Hs.
  - intros Hc b _. apply softmax_row_sum. exact Hc.
Qed.

(** C1 (amended): the weights returned by [Attention.forward], in the
    summation variant and in the learned-projection variant alike, have one
    row per batch element and one column per source position, every entry
    is non-negative, and every row sums to 1 as soon as the source has at
    least one position. *)
Theorem attention_weights_distribution :
  (forall (A : encoder_decoder.Attention) training m dec_state enc_outputs w,
      encoder_decoder.Attention_forward A training m dec_state enc_outputs
        = Some w ->
      shape2 w = (rows2 dec_state, dim0 enc_outputs) /\
      Spec.nonneg_entries w /\
      ((1 <= dim0 enc_outputs)%nat -> Spec.rows_sum_to_one w)) /\
  (forall (A : components.Attention) training m dec_state enc_outputs w,
      components.Attention_forward A training m dec_state enc_outputs
        = Some w ->
      shape2 w = (rows2 dec_state, dim0 enc_outputs) /\
      Spec.nonneg_entries w /\
      ((1 <= dim0 enc_outputs)%nat -> Spec.rows_sum_to_one w)).
Proof.
  split; intros A training m dec_state enc_outputs w H.
  - apply gru_attention_inv in H as (scores & -> & Hr & Hc).
    destruct (softmax_distribution scores) as [Hn Hs].
    split; [unfold shape2; simpl; congruence|].
    split; [exact Hn|]. intros Hlen. apply Hs. lia.
  - apply lstm_attention_inv in H as (scores & -> & Hr & Hc).
    destruct (softmax_distribution scores) as [Hn Hs].
    split; [unfold shape2; simpl; congruence|].
    split; [exact Hn|]. intros Hlen. apply Hs. lia.
Qed.

(** Both variants on a source of two positions. *)
Lemma attention_weights_distribution_witness :
  (exists w,
      encoder_decoder.Attention_forward Examples.gru_attention true
        Examples.keep_all3 Examples.state_1x1 Examples.enc_outputs_two = Some w /\
      Spec.nonneg_entries w /\ Spec.rows_sum_to_one w) /\
  (exists w,
      components.Attention_forward Examples.lstm_attention true
        Examples.keep_all3 Examples.state_1x1 Examples.enc_outputs_two = Some w /\
      Spec.nonneg_entries w /\ Spec.rows_sum_to_one w).
Proof.
  split.
  - eexists. split; [reflexivity|].
    destruct (proj1 attention_weights_distribution Examples.gru_attention true
                Examples.keep_all3 Examples.state_1x1 Examples.enc_outputs_two
                _ eq_refl) as (_ & Hn & Hs).
    split; [exact Hn | apply Hs; simpl; lia].
  - eexists. split; [reflexivity|].
    destruct (proj2 attention_weights_distribution Examples.lstm_attention true
                Examples.keep_all3 Examples.state_1x1 Examples.enc_outputs_two
                _ eq_refl) as (_ & Hn & Hs).
    split; [exact Hn | apply Hs; simpl; lia].
Defined.

(** C1 as stated fails on a source without positions: the row of weights
    is empty and sums to 0. *)
Lemma attention_weights_empty_source :
  exists w,
    encoder_decoder.Attention_forward Examples.gru_attention true
      Examples.keep_all3 Examples.state_1x1 Examples.enc_outputs_empty = Some w /\
    shape2 w = (1%nat, 0%nat) /\
    sumR (cols2 w) (at2 w 0) = 0 /\
    ~ Spec.rows_sum_to_one w.
Proof.
  eexists. split; [reflexivity|]. split; [reflexivity|].
  split; [reflexivity|].
  intros H. specialize (H O). simpl in H.
  assert (0 = 1) as Habs by (apply H; lia). lra.
Qed.

End AttentionWeights.

(** ** The context vector *)

Section Context.

Lemma bmm_inv (a b c : ten3 R) :
  bmm a b = Some c ->
  dim0 a = dim0 b /\ dim2 a = dim1 b /\
  c = Ten3 (dim0 a) (dim1 a) (dim2 b)
        (fun i j k => sumR (dim2 a) (fun m => at3 a i j m * at3 b i m k)).
Proof.
  unfold bmm. intros H.
  destruct (dim0 a =? dim0 b)%nat eqn:E0; [|discriminate].
  destruct (dim2 a =? dim1 b)%nat eqn:E1; [|discriminate].
  apply Nat.eqb_eq in E0, E1. simpl in H. injection H as <-. tauto.
Qed.

(** What [_compute_context] returns, in terms of the attention weights. *)
Lemma compute_context_inv (M : encoder_decoder.EncoderDecoder) training m
    (dec_state : ten2 R) (enc_outputs ctx : ten3 R) :
  encoder_decoder._compute_context M training m dec_state enc_outputs = Some ctx ->
  exists w,
    encoder_decoder.Attention_forward (encoder_decoder.attention M) training m
      dec_state enc_outputs = Some w /\
    rows2 dec_state = dim1 enc_outputs /\
    ctx = Ten3 1 (rows2 w) (dim2 enc_outputs)
            (fun _ b k => sumR (cols2 w)
                            (fun s => at2 w b s * at3 enc_outputs s b k)).
Proof.
  unfold encoder_decoder._compute_context. intros H.
  destruct (encoder_decoder.Attention_forward _ _ _ _ _) as [w|] eqn:Hw;
    [|discriminate]. simpl in H.
  destruct (bmm _ _) as [p|] eqn:Hp; [|discriminate]. simpl in H.
  injection H as <-.
  apply bmm_inv in Hp as (H0 & H1 & ->). simpl in *.
  exists w. split; [reflexivity|].
  apply gru_attention_inv in Hw as (scores & -> & Hr & Hc). simpl in *.
  split; [congruence|]. reflexivity.
Qed.

(** C5: the context vector returned by [_compute_context] has one row per
    batch element, each of its coordinates is the sum over the source
    positions of the attention weight times the encoder output at that
    coordinate, and, the source having at least one position, it lies
    between the smallest and the largest value of that coordinate over the
    positions. *)
Theorem compute_context_convex_combination
    (M : encoder_decoder.EncoderDecoder) training m
    (dec_state : ten2 R) (enc_outputs ctx : ten3 R) :
  encoder_decoder._compute_context M training m dec_state enc_outputs = Some ctx ->
  exists w,
    encoder_decoder.Attention_forward (encoder_decoder.attention M) training m
      dec_state enc_outputs = Some w /\
    shape3 ctx = (1%nat, dim1 enc_outputs, dim2 enc_outputs) /\
    (forall b k,
        at3 ctx 0 b k =
        sumR (dim0 enc_outputs) (fun s => at2 w b s * at3 enc_outputs s b k)) /\
    ((1 <= dim0 enc_outputs)%nat ->
     forall b k, (b < dim1 enc_outputs)%nat -> (k < dim2 enc_outputs)%nat ->
       minR (dim0 enc_outputs - 1) (fun s => at3 enc_outputs s b k)
         <= at3 ctx 0 b k
         <= maxR (dim0 enc_outputs - 1) (fun s => at3 enc_outputs s b k)).
Proof.
  intros H. apply compute_context_inv in H as (w & Hw & Hb & ->).
  exists w. split; [exact Hw|].
  apply gru_attention_inv in Hw as (scores & -> & Hr & Hc).
  split; [unfold shape3; simpl; congruence|].
  split; [intros b k; simpl; rewrite Hc; reflexivity|].
  intros Hlen b k Hbb Hk.
  change (at3 (Ten3 _ _ _ ?f) 0 b k) with (f O b k). cbv beta.
  change (cols2 (softmax2_1 scores)) with (cols2 scores).
  apply (sumR_convex (cols2 scores) (at2 (softmax2_1 scores) b)
           (fun s => at3 enc_outputs s b k)).
  - intros s Hs. apply softmax_nonneg. exact Hs.
  - apply (softmax_row_sum scores b). lia.
  - intros s Hs. split.
    + apply (minR_le _ (fun s' => at3 enc_outputs s' b k) s). lia.
    + apply (maxR_ge _ (fun s' => at3 enc_outputs s' b k) s). lia.
Qed.

(** The context of the example model on a source of two positions. *)
Lemma compute_context_convex_combination_witness :
  exists ctx,
    encoder_decoder._compute_context Examples.toy_model true Examples.keep_all3
      Examples.state_1x1 Examples.enc_outputs_two = Some ctx /\
    0 <= at3 ctx 0 0 0 <= 1 /\ 1 <= at3 ctx 0 0 1 <= 2.
Proof.
  eexists. split; [reflexivity|].
  destruct (compute_context_convex_combination Examples.toy_model true
              Examples.keep_all3 Examples.state_1x1 Examples.enc_outputs_two
              _ eq_refl) as (w & _ & _ & _ & Hb).
  assert (1 <= dim0 Examples.enc_outputs_two)%nat as Hlen by (simpl; lia).
  split.
  - specialize (Hb Hlen O O). cbn [Examples.enc_outputs_two dim0 dim1 dim2
      at3 minR maxR Nat.sub] in Hb.
    assert (Rmin (INR 0 + INR 0) (INR 1 + INR 0) = 0) as Hmin
        by (simpl; rewrite Rmin_left; lra).
    assert (Rmax (INR 0 + INR 0) (INR 1 + INR 0) = 1) as Hmax
        by (simpl; rewrite Rmax_right; lra).
    rewrite Hmin, Hmax in Hb. apply Hb; lia.
  - specialize (Hb Hlen O 1%nat). cbn [Examples.enc_outputs_two dim0 dim1 dim2
      at3 minR maxR Nat.sub] in Hb.
    assert (Rmin (INR 0 + INR 1) (INR 1 + INR 1) = 1) as Hmin
        by (simpl; rewrite Rmin_left; lra).
    assert (Rmax (INR 0 + INR 1) (INR 1 + INR 1) = 2) as Hmax
        by (simpl; rewrite Rmax_right; lra).
    rewrite Hmin, Hmax in Hb. apply Hb; lia.
Defined.

End Context.

(** ** The decoding loop *)

Section Rollout.

Import encoder_decoder.

Lemma loop_app body (l1 l2 : list nat) (ls : loop_state) :
  loop body (l1 ++ l2) ls = ls' ← loop body l1 ls; loop body l2 ls'.
Proof.
  revert ls. induction l1 as [|t l1 IH]; intros ls; simpl.
  - reflexivity.
  - destruct (body t ls) as [ls1|]; simpl; [apply IH | reflexivity].
Qed.

Lemma loop_ext body1 body2 (l : list nat) (ls : loop_state) :
  (forall t ls0, In t l -> body1 t ls0 = body2 t ls0) ->
  loop body1 l ls = loop body2 l ls.
Proof.
  revert ls. induction l as [|t l IH]; intros ls Hext; simpl.
  - reflexivity.
  - rewrite (Hext t ls) by (left; reflexivity).
    destruct (body2 t ls) as [ls1|]; simpl; [|reflexivity].
    apply IH. intros t' ls0 Hin. apply Hext. right. exact Hin.
Qed.

(** A property of the loop variables that every iteration preserves holds
    when the loop ends. *)
Lemma loop_invariant (P : loop_state -> Prop) body (l : list nat)
    (ls ls' : loop_state) :
  (forall t ls0 ls1, In t l -> P ls0 -> body t ls0 = Some ls1 -> P ls1) ->
  P ls -> loop body l ls = Some ls' -> P ls'.
Proof.
  revert ls. induction l as [|t l IH]; intros ls Hstep HP Hloop; simpl in Hloop.
  - injection Hloop as <-. exact HP.
  - destruct (body t ls) as [ls1|] eqn:Hb; [|discriminate]. simpl in Hloop.
    apply (IH ls1).
    + intros t' ls0 ls2 Hin. apply Hstep. right. exact Hin.
    + apply (Hstep t ls ls1); [left; reflexivity | exact HP | exact Hb].
    + exact Hloop.
Qed.

(** What one iteration does, read off [loop_body]. *)
Lemma loop_body_inv M training rng enc_outputs target teacher_forcing
    (t : nat) (ls ls' : loop_state) :
  loop_body M training rng enc_outputs target teacher_forcing t ls = Some ls' ->
  exists context logits state,
    _compute_context M training (attn_mask rng t) (ls_state ls) enc_outputs
      = Some context /\
    Decoder_forward (decoder M) training (dec_mask rng t)
      (ls_out ls) (ls_state ls) context = Some (logits, state) /\
    setitem3 (ls_outputs ls) t logits = Some (ls_outputs ls') /\
    ls_state ls' = state /\
    (if Rlt_dec (random_random rng t) teacher_forcing
     then select2 target (Z.of_nat t) = Some (ls_out ls')
     else max1_indices logits = Some (ls_out ls')).
Proof.
  unfold loop_body. intros H.
  destruct (_compute_context _ _ _ _ _) as [context|] eqn:Hc; [|discriminate].
  simpl in H.
  destruct (Decoder_forward _ _ _ _ _ _) as [[logits state]|] eqn:Hd;
    [|discriminate]. simpl in H.
  destruct (setitem3 _ _ _) as [outputs|] eqn:Hs; [|discriminate]. simpl in H.
  exists context, logits, state. split; [reflexivity|]. split; [exact Hd|].
  destruct (Rlt_dec _ _).
  - destruct (select2 _ _) as [out|] eqn:Ho; [|discriminate].
    injection H as <-. simpl. auto.
  - destruct (max1_indices _) as [out|] eqn:Ho; [|discriminate].
    injection H as <-. simpl. auto.
Qed.

(** The state after [n + 1] iterations is one iteration after the state
    after [n] iterations. *)
Lemma rollout_S M training rng source target teacher_forcing (n : nat) :
  rollout M training rng source target teacher_forcing (S n) =
  '(enc_outputs, ls) ← rollout M training rng source target teacher_forcing n;
  ls' ← loop_body M training rng enc_outputs target teacher_forcing (S n) ls;
  Some (enc_outputs, ls').
Proof.
  unfold rollout.
  destruct (Encoder_forward _ _ _ _) as [[enc_outputs state]|]; [|reflexivity].
  cbn [mbind option_bind].
  destruct (select2 target 0) as [out|]; [|reflexivity]. cbn [mbind option_bind].
  rewrite seq_S, loop_app. cbn [mbind option_bind].
  destruct (loop _ (seq 1 n) _) as [ls|]; [|reflexivity]. simpl.
  destruct (loop_body _ _ _ _ _ _ _ _) as [ls'|]; reflexivity.
Qed.

Lemma rollout_S_inv M training rng source target teacher_forcing (n : nat)
    enc_outputs ls' :
  rollout M training rng source target teacher_forcing (S n)
    = Some (enc_outputs, ls') ->
  exists ls,
    rollout M training rng source target teacher_forcing n
      = Some (enc_outputs, ls) /\
    loop_body M training rng enc_outputs target teacher_forcing (S n) ls
      = Some ls'.
Proof.
  rewrite rollout_S. intros H.
  destruct (rollout _ _ _ _ _ _ n) as [[eo ls]|]; [|discriminate]. simpl in H.
  destruct (loop_body _ _ _ _ _ _ _ _) as [ls1|] eqn:Hb; [|discriminate].
  injection H as <- <-. eauto.
Qed.

Lemma rollout_0_inv M training rng source target teacher_forcing
    enc_outputs ls :
  rollout M training rng source target teacher_forcing 0
    = Some (enc_outputs, ls) ->
  select2 target 0 = Some (ls_out ls).
Proof.
  unfold rollout. intros H.
  destruct (Encoder_forward _ _ _ _) as [[eo state]|]; [|discriminate].
  simpl in H. destruct (select2 target 0) as [out|]; [|discriminate].
  simpl in H. injection H as <- <-. reflexivity.
Qed.

(** [forward] returns the output tensor of the state after
    [max_len - 1] iterations. *)
Lemma forward_rollout M training rng source target teacher_forcing :
  forward M training rng source target teacher_forcing =
  '(_, ls) ← rollout M training rng source target teacher_forcing
               (rows2 target - 1);
  Some (ls_outputs ls).
Proof.
  unfold forward, rollout.
  destruct (Encoder_forward _ _ _ _) as [[enc_outputs state]|]; [|reflexivity].
  simpl. destruct (select2 target 0) as [out|]; [|reflexivity]. simpl.
  destruct (loop _ _ _) as [ls|]; reflexivity.
Qed.

End Rollout.

(** ** Teacher forcing *)

Section TeacherForcing.

Import encoder_decoder.

Lemma Rlt_dec_true (a b : R) {T} (x y : T) :
  a < b -> (if Rlt_dec a b then x else y) = x.
Proof. intros H. destruct (Rlt_dec a b); [reflexivity | contradiction]. Qed.

Lemma Rlt_dec_false (a b : R) {T} (x y : T) :
  b <= a -> (if Rlt_dec a b then x else y) = y.
Proof. intros H. destruct (Rlt_dec a b); [lra | reflexivity]. Qed.

(** C2: with teacher forcing 1 and draws of [random.random()] in [0, 1),
    the token which iteration [t] hands to the decoder is [target[t - 1]],
    for every [t >= 1]: the seed [target[0]] in iteration 1 and the ground
    truth of the previous position afterwards. *)
Theorem teacher_forcing_one_feeds_target M training rng source target :
  (forall t, 0 <= random_random rng t < 1) ->
  forall t enc_outputs ls,
    (1 <= t)%nat ->
    rollout M training rng source target 1 (t - 1) = Some (enc_outputs, ls) ->
    select2 target (Z.of_nat (t - 1)) = Some (ls_out ls) /\
    forall ls',
      loop_body M training rng enc_outputs target 1 t ls = Some ls' ->
      exists token context result,
        select2 target (Z.of_nat (t - 1)) = Some token /\
        Decoder_forward (decoder M) training (dec_mask rng t)
          token (ls_state ls) context = Some result.
Proof.
  intros Hdraw t enc_outputs ls Ht Hroll.
  assert (select2 target (Z.of_nat (t - 1)) = Some (ls_out ls)) as Hfed.
  { destruct t as [|n]; [lia|]. replace (S n - 1)%nat with n in * by lia.
    clear Ht. destruct n as [|n].
    - apply rollout_0_inv in Hroll. exact Hroll.
    - apply rollout_S_inv in Hroll as (ls0 & _ & Hbody).
      apply loop_body_inv in Hbody
        as (context & logits & state & _ & _ & _ & _ & Hout).
      rewrite Rlt_dec_true in Hout by apply Hdraw. exact Hout. }
  split; [exact Hfed|].
  intros ls' Hbody.
  apply loop_body_inv in Hbody as (context & logits & state & _ & Hd & _).
  exists (ls_out ls), context, (logits, state). split; [exact Hfed | exact Hd].
Qed.

End TeacherForcing.

(** ** Construction of the model *)

Section Construction.

Import encoder_decoder.

Lemma GRU_init_inv (input_size hidden_size : Z) bidirectional kernel (g : GRU) :
  GRU_init input_size hidden_size bidirectional kernel = Some g ->
  (0 < hidden_size)%Z /\ (0 < input_size)%Z /\
  gru_input_size g = Z.to_nat input_size /\
  gru_hidden_size g = Z.to_nat hidden_size /\
  gru_bidirectional g = bidirectional /\ gru_call g = kernel.
Proof.
  unfold GRU_init. intros H.
  destruct (hidden_size <=? 0)%Z eqn:E1; [discriminate|].
  destruct (input_size <=? 0)%Z eqn:E2; [discriminate|].
  apply Z.leb_gt in E1, E2.
  injection H as <-. simpl. tauto.
Qed.

Lemma Dropout_init_inv (p : R) (D : Dropout) :
  Dropout_init p = Some D -> 0 <= p <= 1 /\ drop_p D = p.
Proof.
  unfold Dropout_init. intros H.
  destruct (Rlt_dec p 0); [discriminate|].
  destruct (Rlt_dec 1 p); [discriminate|].
  injection H as <-. simpl. split; [lra | reflexivity].
Qed.

Lemma Dropout_init_some (p : R) :
  0 <= p <= 1 -> Dropout_init p = Some {| drop_p := p |}.
Proof.
  intros H. unfold Dropout_init.
  destruct (Rlt_dec p 0); [lra|]. destruct (Rlt_dec 1 p); [lra|]. reflexivity.
Qed.

Lemma Encoder_init_inv embed_weights units dropout i (E : Encoder) :
  Encoder_init embed_weights units dropout i = Some E ->
  (0 < units)%Z /\ 0 <= dropout <= 1 /\
  enc_embedding E = from_pretrained embed_weights /\
  gru_input_size (enc_gru E) = cols2 embed_weights /\
  gru_hidden_size (enc_gru E) = Z.to_nat units /\
  gru_bidirectional (enc_gru E) = true /\
  in_features (enc_fc E) = (2 * Z.to_nat units)%nat /\
  out_features (enc_fc E) = Z.to_nat units.
Proof.
  unfold Encoder_init. intros H.
  destruct (GRU_init _ _ _ _) as [g|] eqn:Hg; [|discriminate]. simpl in H.
  destruct (Linear_init _ _ _ _) as [l|] eqn:Hl; [|discriminate]. simpl in H.
  destruct (Dropout_init _) as [d|] eqn:Hd; [|discriminate]. simpl in H.
  injection H as <-. simpl.
  apply GRU_init_inv in Hg as (G1 & G2 & G3 & G4 & G5 & G6).
  apply Linear_init_inv in Hl as (L1 & L2 & L3 & L4).
  apply Dropout_init_inv in Hd as (D1 & D2).
  repeat split; try assumption; try lra; try lia.
Qed.

Lemma Attention_init_inv state_dim units dropout i (A : Attention) :
  Attention_init state_dim units dropout i = Some A ->
  (0 <= state_dim)%Z /\ (0 <= units)%Z /\ 0 <= dropout <= 1 /\
  in_features (attn_fc A) = (3 * Z.to_nat state_dim)%nat /\
  out_features (attn_fc A) = Z.to_nat units.
Proof.
  unfold Attention_init. intros H.
  destruct (Linear_init _ _ _ _) as [l|] eqn:Hl; [|discriminate]. simpl in H.
  destruct (Dropout_init _) as [d|] eqn:Hd; [|discriminate]. simpl in H.
  injection H as <-. simpl.
  apply Linear_init_inv in Hl as (L1 & L2 & L3 & L4).
  apply Dropout_init_inv in Hd as (D1 & D2).
  repeat split; try assumption; try lra; try lia.
Qed.

Lemma Decoder_init_inv embed_weights units context_size dropout i (D : Decoder) :
  Decoder_init embed_weights units context_size dropout i = Some D ->
  (0 < units)%Z /\ 0 <= dropout <= 1 /\
  dec_embedding D = from_pretrained embed_weights /\
  dec_vocab_size D = rows2 embed_weights /\
  gru_input_size (dec_rnn D) = (2 * Z.to_nat units + cols2 embed_weights)%nat /\
  gru_hidden_size (dec_rnn D) = Z.to_nat units /\
  gru_bidirectional (dec_rnn D) = false /\
  in_features (dec_fc D)
    = Z.to_nat (units + context_size + Z.of_nat (cols2 embed_weights)) /\
  out_features (dec_fc D) = rows2 embed_weights.
Proof.
  unfold Decoder_init. intros H.
  destruct (GRU_init _ _ _ _) as [g|] eqn:Hg; [|discriminate]. simpl in H.
  destruct (Linear_init _ _ _ _) as [l|] eqn:Hl; [|discriminate]. simpl in H.
  destruct (Dropout_init _) as [d|] eqn:Hd; [|discriminate]. simpl in H.
  injection H as <-. simpl.
  apply GRU_init_inv in Hg as (G1 & G2 & G3 & G4 & G5 & G6).
  apply Linear_init_inv in Hl as (L1 & L2 & L3 & L4).
  apply Dropout_init_inv in Hd as (D1 & D2).
  repeat split; try assumption; try lra; try lia.
Qed.

(** A model that [EncoderDecoder.__init__] returns has the dimensions of
    its layers fixed by the one [rnn_units] and by the two tables. *)
Lemma EncoderDecoder_init_dims dev Ws Wt rnn_units attn_units dropout i M :
  EncoderDecoder_init dev Ws Wt rnn_units attn_units dropout i = Some M ->
  (0 < rnn_units)%Z /\ (0 <= attn_units)%Z /\ 0 <= dropout <= 1 /\
  Spec.model_dims M (Z.to_nat rnn_units) Ws Wt.
Proof.
  unfold EncoderDecoder_init. intros H.
  destruct (Encoder_init _ _ _ _) as [E|] eqn:HE; [|discriminate]. cbn [mbind option_bind] in H.
  destruct (Attention_init _ _ _ _) as [A|] eqn:HA; [|discriminate]. cbn [mbind option_bind] in H.
  destruct (Decoder_init _ _ _ _ _) as [D|] eqn:HD; [|discriminate]. cbn [mbind option_bind] in H.
  injection H as <-.
  apply Encoder_init_inv in HE as (E1 & E2 & E3 & E4 & E5 & E6 & E7 & E8).
  apply Attention_init_inv in HA as (A1 & A2 & A3 & A4 & A5).
  apply Decoder_init_inv in HD as (D1 & D2 & D3 & D4 & D5 & D6 & D7 & D8 & D9).
  split; [exact E1|]. split; [exact A2|]. split; [exact E2|].
  constructor; simpl; try assumption; try lia.
Qed.

End Construction.

(** ** Success of the operations on tensors of matching shapes *)

Section Success.

Lemma forall_lt_true (n : nat) (p : nat -> bool) :
  (forall i, (i < n)%nat -> p i = true) -> forall_lt n p = true.
Proof.
  induction n as [|n IH]; intros Hp; simpl.
  - reflexivity.
  - rewrite IH by (intros i Hi; apply Hp; lia).
    rewrite Hp by lia. reflexivity.
Qed.

Lemma embedding2_ok (E : Embedding) (ids : ten2 Z) :
  Spec.ids_in_range ids (rows2 (emb_weight E)) ->
  exists e, embedding2 E ids = Some e /\
    dim0 e = rows2 ids /\ dim1 e = cols2 ids /\
    dim2 e = cols2 (emb_weight E).
Proof.
  intros Hr. unfold embedding2. rewrite forall_lt_true.
  - eexists. split; [reflexivity|]. simpl. tauto.
  - intros i Hi. apply forall_lt_true. intros j Hj.
    unfold id_in_range. specialize (Hr i j Hi Hj).
    apply andb_true_iff. split; [apply Z.leb_le | apply Z.ltb_lt]; lia.
Qed.

Lemma index_of_nat (n t : nat) :
  (t < n)%nat -> index_of n (Z.of_nat t) = Some t.
Proof.
  intros Ht. unfold index_of.
  destruct (0 <=? Z.of_nat t)%Z eqn:E1; [|apply Z.leb_gt in E1; lia].
  destruct (Z.of_nat t <? Z.of_nat n)%Z eqn:E2; [|apply Z.ltb_ge in E2; lia].
  rewrite Nat2Z.id. reflexivity.
Qed.

Lemma select2_nat {A} (x : ten2 A) (t : nat) :
  (t < rows2 x)%nat ->
  select2 x (Z.of_nat t) = Some (Ten1 (cols2 x) (fun j => at2 x t j)).
Proof. intros Ht. unfold select2. rewrite index_of_nat by exact Ht. reflexivity. Qed.

Lemma select3_ok {A} (x : ten3 A) (i : Z) (r : nat) :
  index_of (dim0 x) i = Some r ->
  exists y, select3 x i = Some y /\ rows2 y = dim1 x /\ cols2 y = dim2 x.
Proof.
  intros Hi. unfold select3. rewrite Hi. eexists. split; [reflexivity|].
  simpl. tauto.
Qed.

Lemma cat3_2_ok {A} (a b : ten3 A) :
  dim0 a = dim0 b -> dim1 a = dim1 b ->
  exists c, cat3_2 a b = Some c /\
    dim0 c = dim0 a /\ dim1 c = dim1 a /\ dim2 c = (dim2 a + dim2 b)%nat.
Proof.
  intros H0 H1. destruct (cat3_2_some a b H0 H1) as [c Hc].
  exists c. split; [exact Hc|]. apply cat3_2_inv in Hc. tauto.
Qed.

Lemma cat2_1_ok {A} (a b : ten2 A) :
  rows2 a = rows2 b ->
  exists c, cat2_1 a b = Some c /\
    rows2 c = rows2 a /\ cols2 c = (cols2 a + cols2 b)%nat.
Proof.
  intros H0. destruct (cat2_1_some a b H0) as [c Hc].
  exists c. split; [exact Hc|]. apply cat2_1_inv in Hc. tauto.
Qed.

Lemma linear3_ok (L : Linear) (x : ten3 R) :
  dim2 x = in_features L ->
  exists y, linear3 L x = Some y /\
    dim0 y = dim0 x /\ dim1 y = dim1 x /\ dim2 y = out_features L.
Proof.
  intros H. destruct (linear3_some L x H) as [y Hy].
  exists y. split; [exact Hy|]. apply linear3_inv in Hy. tauto.
Qed.

Lemma linear2_ok (L : Linear) (x : ten2 R) :
  cols2 x = in_features L ->
  exists y, linear2 L x = Some y /\
    rows2 y = rows2 x /\ cols2 y = out_features L.
Proof.
  intros H. destruct (linear2_some L x H) as [y Hy].
  exists y. split; [exact Hy|]. apply linear2_inv in Hy. tauto.
Qed.

Lemma squeeze0_ok {A} (x : ten3 A) :
  dim0 x = 1%nat ->
  exists y, squeeze0 x = Some y /\ rows2 y = dim1 x /\ cols2 y = dim2 x.
Proof.
  intros H. unfold squeeze0. rewrite H. simpl. eexists.
  split; [reflexivity|]. simpl. tauto.
Qed.

Lemma bmm_ok (a b : ten3 R) :
  dim0 a = dim0 b -> dim2 a = dim1 b ->
  exists c, bmm a b = Some c /\
    dim0 c = dim0 a /\ dim1 c = dim1 a /\ dim2 c = dim2 b.
Proof.
  intros H0 H1. unfold bmm. rewrite H0, H1, !Nat.eqb_refl. simpl.
  eexists. split; [reflexivity|]. simpl. tauto.
Qed.

Lemma setitem3_ok {A} (x : ten3 A) (t : nat) (v : ten2 A) :
  (t < dim0 x)%nat -> rows2 v = dim1 x -> cols2 v = dim2 x ->
  exists y, setitem3 x t v = Some y /\
    dim0 y = dim0 x /\ dim1 y = dim1 x /\ dim2 y = dim2 x.
Proof.
  intros Ht Hr Hc. unfold setitem3.
  apply Nat.ltb_lt in Ht. rewrite Ht, Hr, Hc, !Nat.eqb_refl. simpl.
  eexists. split; [reflexivity|]. simpl. tauto.
Qed.

Lemma setitem3_inv {A} (x y : ten3 A) (t : nat) (v : ten2 A) :
  setitem3 x t v = Some y ->
  (t < dim0 x)%nat /\
  dim0 y = dim0 x /\ dim1 y = dim1 x /\ dim2 y = dim2 x /\
  forall i j k, i <> t -> at3 y i j k = at3 x i j k.
Proof.
  unfold setitem3. intros H.
  destruct (t <? dim0 x)%nat eqn:Et; [|discriminate].
  destruct (_ && _) eqn:E in H; [|discriminate].
  injection H as <-. apply Nat.ltb_lt in Et. simpl.
  repeat split; try assumption.
  intros i j k Hi. apply Nat.eqb_neq in Hi. rewrite Hi. reflexivity.
Qed.

Lemma argmax_upto_le (f : nat -> R) (k : nat) : (argmax_upto f k <= k)%nat.
Proof.
  induction k as [|k IH]; simpl.
  - lia.
  - destruct (Rlt_dec _ _); lia.
Qed.

Lemma argmax_upto_max (f : nat -> R) (k : nat) :
  (forall i, (i <= k)%nat -> f i <= f (argmax_upto f k)) /\
  (forall i, (i < argmax_upto f k)%nat -> f i < f (argmax_upto f k)).
Proof.
  induction k as [|k [IHmax IHfirst]]; simpl.
  - split; intros i Hi; [replace i with O by lia; lra | lia].
  - pose proof (argmax_upto_le f k) as Hle.
    destruct (Rlt_dec (f (argmax_upto f k)) (f (S k))) as [Hlt|Hge].
    + split; intros i Hi.
      * destruct (Nat.eq_dec i (S k)) as [->|Hne]; [lra|].
        assert (f i <= f (argmax_upto f k)) by (apply IHmax; lia). lra.
      * assert (f i <= f (argmax_upto f k)) by (apply IHmax; lia). lra.
    + split; intros i Hi.
      * destruct (Nat.eq_dec i (S k)) as [->|Hne]; [lra|].
        apply IHmax. lia.
      * apply IHfirst. exact Hi.
Qed.

(** What [x.max(1)[1]] returns: for every row an index below the number
    of columns, at which the row is largest, and the first such index. *)
Lemma max1_indices_inv (x : ten2 R) (ids : ten1 Z) :
  max1_indices x = Some ids ->
  len1 ids = rows2 x /\
  forall b,
    (0 <= at1 ids b < Z.of_nat (cols2 x))%Z /\
    (forall v, (v < cols2 x)%nat ->
       at2 x b v <= at2 x b (Z.to_nat (at1 ids b))) /\
    (forall v, (v < Z.to_nat (at1 ids b))%nat ->
       at2 x b v < at2 x b (Z.to_nat (at1 ids b))).
Proof.
  unfold max1_indices. intros H.
  destruct (cols2 x =? 0)%nat eqn:E; [discriminate|].
  apply Nat.eqb_neq in E. injection H as <-.
  cbn [len1 at1]. split; [reflexivity|].
  intros b. rewrite Nat2Z.id.
  pose proof (argmax_upto_le (at2 x b) (cols2 x - 1)) as Hle.
  destruct (argmax_upto_max (at2 x b) (cols2 x - 1)) as [Hmax Hfirst].
  split; [lia|]. split.
  - intros v Hv. apply Hmax. lia.
  - exact Hfirst.
Qed.

Lemma max1_indices_ok (x : ten2 R) :
  (1 <= cols2 x)%nat ->
  exists ids, max1_indices x = Some ids /\
    len1 ids = rows2 x /\
    forall i, (0 <= at1 ids i < Z.of_nat (cols2 x))%Z.
Proof.
  intros Hc. unfold max1_indices.
  destruct (cols2 x =? 0)%nat eqn:E; [apply Nat.eqb_eq in E; lia|].
  eexists. split; [reflexivity|]. simpl. split; [reflexivity|].
  intros i. pose proof (argmax_upto_le (at2 x i) (cols2 x - 1)). lia.
Qed.

End Success.

(** ** Shape safety of the forward pass *)

Section ShapeSafety.

Import encoder_decoder.

Variable M : EncoderDecoder.
Variable u : nat.
Variables Ws Wt : ten2 R.
Hypothesis Hdims : Spec.model_dims M u Ws Wt.
Hypothesis Henc_gru : Spec.GRU_contract (enc_gru (encoder M)).
Hypothesis Hdec_rnn : Spec.GRU_contract (dec_rnn (decoder M)).

Lemma Encoder_forward_ok training m (source : ten2 Z) :
  (1 <= rows2 source)%nat -> (1 <= cols2 source)%nat ->
  Spec.ids_in_range source (rows2 Ws) ->
  exists enc_outputs state,
    Encoder_forward (encoder M) training m source = Some (enc_outputs, state) /\
    dim0 enc_outputs = rows2 source /\ dim1 enc_outputs = cols2 source /\
    dim2 enc_outputs = (2 * u)%nat /\
    rows2 state = cols2 source /\ cols2 state = u.
Proof.
  intros HS HB Hr. destruct Hdims. unfold Encoder_forward.
  destruct (embedding2_ok (enc_embedding (encoder M)) source)
    as (e & He & E0 & E1 & E2).
  { rewrite md_enc_emb. exact Hr. }
  rewrite He. cbn [mbind option_bind].
  destruct (Henc_gru e None) as (o & h & Hcall & Ho & Hh);
    [lia | lia | rewrite E2, md_enc_emb, md_enc_gru_in; reflexivity | exact I |].
  rewrite Hcall. cbn [mbind option_bind].
  unfold shape3 in Ho, Hh.
  rewrite md_enc_gru_bidirectional, md_enc_gru_hidden in Ho, Hh.
  cbn [directions] in Ho, Hh.
  injection Ho as O0 O1 O2. injection Hh as H0 H1 H2.
  destruct (select3_ok h (-2) 0) as (s1 & Hs1 & S1r & S1c);
    [rewrite H0; reflexivity|].
  destruct (select3_ok h (-1) 1) as (s2 & Hs2 & S2r & S2c);
    [rewrite H0; reflexivity|].
  rewrite Hs1, Hs2. cbn [mbind option_bind].
  destruct (cat2_1_ok s1 s2) as (c & Hc & C0 & C1); [congruence|].
  rewrite Hc. cbn [mbind option_bind].
  destruct (dropout2_shape (enc_dropout (encoder M)) training m c) as [D0 D1].
  destruct (linear2_ok (enc_fc (encoder M))
              (dropout2 (enc_dropout (encoder M)) training m c))
    as (y & Hy & Y0 & Y1); [rewrite md_enc_fc_in; lia|].
  rewrite Hy. cbn [mbind option_bind].
  eexists _, _. split; [reflexivity|]. simpl. repeat split; lia.
Qed.

Lemma Attention_forward_ok training m (dec_state : ten2 R) (enc_outputs : ten3 R) :
  rows2 dec_state = dim1 enc_outputs -> cols2 dec_state = u ->
  dim2 enc_outputs = (2 * u)%nat ->
  exists w,
    Attention_forward (attention M) training m dec_state enc_outputs = Some w /\
    rows2 w = dim1 enc_outputs /\ cols2 w = dim0 enc_outputs.
Proof.
  intros HB Hu Hd. destruct Hdims. unfold Attention_forward.
  destruct (cat3_2_ok (repeat_1n1 (dim0 enc_outputs) (unsqueeze1_2 dec_state))
              (permute102 enc_outputs)) as (c & Hc & C0 & C1 & C2);
    [simpl; lia | simpl; lia |].
  rewrite Hc. cbn [mbind option_bind].
  destruct (dropout3_shape (attn_dropout (attention M)) training m c)
    as (D0 & D1 & D2).
  destruct (linear3_ok (attn_fc (attention M))
              (dropout3 (attn_dropout (attention M)) training m c))
    as (y & Hy & Y0 & Y1 & Y2); [rewrite md_attn_fc_in; simpl in *; lia|].
  rewrite Hy. cbn [mbind option_bind].
  eexists. split; [reflexivity|]. simpl in *. split; lia.
Qed.

Lemma compute_context_ok training m (dec_state : ten2 R) (enc_outputs : ten3 R) :
  rows2 dec_state = dim1 enc_outputs -> cols2 dec_state = u ->
  dim2 enc_outputs = (2 * u)%nat ->
  exists context,
    _compute_context M training m dec_state enc_outputs = Some context /\
    dim0 context = 1%nat /\ dim1 context = dim1 enc_outputs /\
    dim2 context = (2 * u)%nat.
Proof.
  intros HB Hu Hd. unfold _compute_context.
  destruct (Attention_forward_ok training m dec_state enc_outputs HB Hu Hd)
    as (w & Hw & W0 & W1).
  rewrite Hw. cbn [mbind option_bind].
  destruct (bmm_ok (unsqueeze1_2 w) (permute102 enc_outputs))
    as (p & Hp & P0 & P1 & P2); [simpl; lia | simpl; lia |].
  rewrite Hp. cbn [mbind option_bind].
  eexists. split; [reflexivity|]. simpl in *. repeat split; lia.
Qed.

Lemma Decoder_forward_ok training m (token : ten1 Z) (dec_state : ten2 R)
    (context : ten3 R) :
  (1 <= len1 token)%nat ->
  (forall j, (j < len1 token)%nat -> (0 <= at1 token j < Z.of_nat (rows2 Wt))%Z) ->
  rows2 dec_state = len1 token -> cols2 dec_state = u ->
  dim0 context = 1%nat -> dim1 context = len1 token ->
  dim2 context = (2 * u)%nat ->
  exists logits state,
    Decoder_forward (decoder M) training m token dec_state context
      = Some (logits, state) /\
    rows2 logits = len1 token /\ cols2 logits = rows2 Wt /\
    rows2 state = len1 token /\ cols2 state = u.
Proof.
  intros HB Hr S0 S1 C0 C1 C2. destruct Hdims.
  unfold Decoder_forward, Decoder_rnn_input.
  destruct (embedding2_ok (dec_embedding (decoder M)) (unsqueeze0_1 token))
    as (e & He & E0 & E1 & E2).
  { rewrite md_dec_emb. intros i j Hi Hj. simpl in *. apply Hr. exact Hj. }
  rewrite md_dec_emb in E2. simpl in E0, E1, E2.
  rewrite He. cbn [mbind option_bind].
  destruct (cat3_2_ok e context) as (x & Hx & X0 & X1 & X2); [lia | lia |].
  rewrite Hx. cbn [mbind option_bind].
  destruct (Hdec_rnn x (Some (unsqueeze0_2 dec_state)))
    as (o & h & Hcall & Ho & Hh).
  { lia. }
  { lia. }
  { rewrite md_dec_rnn_in. lia. }
  { unfold shape3. rewrite md_dec_rnn_bidirectional, md_dec_rnn_hidden.
    simpl. congruence. }
  rewrite Hcall. cbn [mbind option_bind].
  unfold shape3 in Ho, Hh.
  rewrite md_dec_rnn_bidirectional, md_dec_rnn_hidden in Ho, Hh.
  cbn [directions] in Ho, Hh.
  injection Ho as O0 O1 O2. injection Hh as H0 H1 H2.
  destruct (squeeze0_ok e) as (e' & He' & E0' & E1'); [lia|].
  destruct (squeeze0_ok o) as (o' & Ho' & O0' & O1'); [lia|].
  destruct (squeeze0_ok context) as (c' & Hc' & C0' & C1'); [lia|].
  rewrite He'. cbn [mbind option_bind].
  rewrite Ho'. cbn [mbind option_bind].
  rewrite Hc'. cbn [mbind option_bind].
  destruct (cat2_1_ok o' c') as (k1 & Hk1 & K10 & K11); [lia|].
  rewrite Hk1. cbn [mbind option_bind].
  destruct (cat2_1_ok k1 e') as (k2 & Hk2 & K20 & K21); [lia|].
  rewrite Hk2. cbn [mbind option_bind].
  destruct (dropout2_shape (dec_dropout (decoder M)) training m k2) as [D0 D1].
  destruct (linear2_ok (dec_fc (decoder M))
              (dropout2 (dec_dropout (decoder M)) training m k2))
    as (y & Hy & Y0 & Y1); [rewrite md_dec_fc_in; lia|].
  rewrite Hy. cbn [mbind option_bind].
  destruct (squeeze0_ok h) as (h' & Hh' & H0' & H1'); [lia|].
  rewrite Hh'. cbn [mbind option_bind].
  eexists _, _. split; [reflexivity|]. repeat split; lia.
Qed.

Lemma loop_body_ok training rng (enc_outputs : ten3 R) (target : ten2 Z)
    teacher_forcing (t : nat) (ls : loop_state) :
  (1 <= cols2 target)%nat ->
  Spec.ids_in_range target (rows2 Wt) ->
  dim1 enc_outputs = cols2 target -> dim2 enc_outputs = (2 * u)%nat ->
  (1 <= t < rows2 target)%nat ->
  Spec.loop_shapes (rows2 target) (cols2 target) (rows2 Wt) u ls ->
  exists ls',
    loop_body M training rng enc_outputs target teacher_forcing t ls = Some ls' /\
    Spec.loop_shapes (rows2 target) (cols2 target) (rows2 Wt) u ls'.
Proof.
  intros HB Hr E1 E2 Ht (Ho & Hl & Hids & Hs).
  unfold shape3 in Ho. unfold shape2 in Hs.
  injection Ho as O0 O1 O2. injection Hs as S0 S1.
  assert (1 <= rows2 Wt)%nat as HV.
  { specialize (Hr O O). lia. }
  unfold loop_body.
  destruct (compute_context_ok training (attn_mask rng t) (ls_state ls)
              enc_outputs) as (c & Hc & C0 & C1 & C2); [lia | lia | lia |].
  rewrite Hc. cbn [mbind option_bind].
  destruct (Decoder_forward_ok training (dec_mask rng t) (ls_out ls)
              (ls_state ls) c) as (logits & state & Hd & L0 & L1 & T0 & T1);
    [lia | intros j Hj; apply Hids; lia | lia | lia | lia | lia | lia |].
  rewrite Hd. cbn [mbind option_bind].
  destruct (setitem3_ok (ls_outputs ls) t logits)
    as (outputs & Hset & U0 & U1 & U2); [lia | lia | lia |].
  rewrite Hset. cbn [mbind option_bind].
  destruct (Rlt_dec (random_random rng t) teacher_forcing).
  - rewrite select2_nat by lia. cbn [mbind option_bind].
    eexists. split; [reflexivity|].
    unfold Spec.loop_shapes, shape3, shape2. simpl.
    split; [congruence|]. split; [reflexivity|].
    split; [intros j Hj; apply Hr; lia|]. congruence.
  - destruct (max1_indices_ok logits) as (ids & Hi & I0 & I1); [lia|].
    rewrite Hi. cbn [mbind option_bind].
    eexists. split; [reflexivity|].
    unfold Spec.loop_shapes, shape3, shape2. simpl.
    split; [congruence|]. split; [lia|].
    split; [intros j Hj; specialize (I1 j); lia|]. congruence.
Qed.

Lemma loop_ok training rng (enc_outputs : ten3 R) (target : ten2 Z)
    teacher_forcing (steps : list nat) (ls : loop_state) :
  (1 <= cols2 target)%nat ->
  Spec.ids_in_range target (rows2 Wt) ->
  dim1 enc_outputs = cols2 target -> dim2 enc_outputs = (2 * u)%nat ->
  (forall t, In t steps -> (1 <= t < rows2 target)%nat) ->
  Spec.loop_shapes (rows2 target) (cols2 target) (rows2 Wt) u ls ->
  exists ls',
    loop (loop_body M training rng enc_outputs target teacher_forcing) steps ls
      = Some ls' /\
    Spec.loop_shapes (rows2 target) (cols2 target) (rows2 Wt) u ls'.
Proof.
  intros HB Hr E1 E2. revert ls.
  induction steps as [|t steps IH]; intros ls Hsteps Hinv; simpl.
  - eauto.
  - destruct (loop_body_ok training rng enc_outputs target teacher_forcing t ls)
      as (ls1 & Hb & Hinv1); try assumption.
    { apply Hsteps. left. reflexivity. }
    rewrite Hb. cbn [mbind option_bind].
    apply IH; [|exact Hinv1]. intros t' Hin. apply Hsteps. right. exact Hin.
Qed.

(** On well-shaped inputs the first [n] iterations succeed, for every
    [n] up to [max_len - 1]. *)
Lemma rollout_ok training rng (source target : ten2 Z) teacher_forcing (n : nat) :
  (1 <= rows2 source)%nat -> (1 <= cols2 source)%nat ->
  (1 <= rows2 target)%nat -> cols2 target = cols2 source ->
  Spec.ids_in_range source (rows2 Ws) ->
  Spec.ids_in_range target (rows2 Wt) ->
  (n <= rows2 target - 1)%nat ->
  exists enc_outputs ls,
    rollout M training rng source target teacher_forcing n
      = Some (enc_outputs, ls) /\
    Spec.loop_shapes (rows2 target) (cols2 target) (rows2 Wt) u ls.
Proof.
  intros HS HB HT Hcols Hrs Hrt Hn. unfold rollout.
  destruct (Encoder_forward_ok training (enc_mask rng) source HS HB Hrs)
    as (eo & st & He & E0 & E1 & E2 & S0 & S1).
  rewrite He. cbn [mbind option_bind].
  change (select2 target 0) with (select2 target (Z.of_nat 0)).
  rewrite (select2_nat target 0) by lia. cbn [mbind option_bind].
  destruct (loop_ok training rng eo target teacher_forcing (seq 1 n)
              {| ls_outputs :=
                   to (zeros3 (rows2 target) (cols2 source) (target_vocab_size M))
                      (model_device M);
                 ls_out := Ten1 (cols2 target) (fun j => at2 target 0 j);
                 ls_state := st |}) as (ls & Hl & Hinv).
  - lia.
  - exact Hrt.
  - lia.
  - exact E2.
  - intros t Hin. apply in_seq in Hin. lia.
  - unfold Spec.loop_shapes, shape3, shape2, to. simpl.
    rewrite (Spec.md_vocab _ _ _ _ Hdims), Hcols.
    split; [reflexivity|]. split; [reflexivity|].
    split; [intros j Hj; apply Hrt; lia|]. congruence.
  - rewrite Hl. cbn [mbind option_bind]. eauto.
Qed.

Lemma forward_ok training rng (source target : ten2 Z) teacher_forcing :
  (1 <= rows2 source)%nat -> (1 <= cols2 source)%nat ->
  (1 <= rows2 target)%nat -> cols2 target = cols2 source ->
  Spec.ids_in_range source (rows2 Ws) ->
  Spec.ids_in_range target (rows2 Wt) ->
  exists outputs,
    forward M training rng source target teacher_forcing = Some outputs /\
    shape3 outputs = (rows2 target, cols2 source, rows2 Wt).
Proof.
  intros HS HB HT Hcols Hrs Hrt. rewrite forward_rollout.
  destruct (rollout_ok training rng source target teacher_forcing
              (rows2 target - 1) HS HB HT Hcols Hrs Hrt (le_n _))
    as (eo & ls & Hroll & Ho & _).
  rewrite Hroll. cbn [mbind option_bind].
  eexists. split; [reflexivity|]. rewrite Ho, Hcols. reflexivity.
Qed.

End ShapeSafety.

(** ** The example model *)

Section ExampleFacts.

Import encoder_decoder.

Lemma toy_kernel_contract (n_in hidden : nat) (bidirectional : bool) :
  Spec.GRU_contract
    {| gru_input_size := n_in; gru_hidden_size := hidden;
       gru_bidirectional := bidirectional;
       gru_call := Examples.toy_kernel n_in hidden (directions bidirectional) |}.
Proof.
  intros x h0 _ _ Hin Hh0. simpl in *. unfold Examples.toy_kernel.
  rewrite Hin, Nat.eqb_refl. simpl.
  assert (match h0 with
          | Some h => (dim0 h =? directions bidirectional)%nat
                      && (dim1 h =? dim1 x)%nat && (dim2 h =? hidden)%nat
          | None => true
          end = true) as ->.
  { destruct h0 as [h|]; [|reflexivity]. unfold shape3 in Hh0.
    injection Hh0 as -> -> ->. rewrite !Nat.eqb_refl. reflexivity. }
  eexists _, _. split; [reflexivity|]. split; reflexivity.
Qed.

Lemma toy_model_init :
  EncoderDecoder_init cpu (Examples.table 3) (Examples.table 2) 1 2 (/ 2)
    Examples.toy_init = Some Examples.toy_model.
Proof.
  unfold EncoderDecoder_init, Encoder_init, Attention_init, Decoder_init.
  rewrite !Dropout_init_some by lra. reflexivity.
Qed.

Lemma toy_model_contracts :
  Spec.GRU_contract (enc_gru (encoder Examples.toy_model)) /\
  Spec.GRU_contract (dec_rnn (decoder Examples.toy_model)).
Proof.
  split.
  - exact (toy_kernel_contract 1 1 true).
  - exact (toy_kernel_contract 3 1 false).
Qed.

Lemma toy_model_dims :
  Spec.model_dims Examples.toy_model 1 (Examples.table 3) (Examples.table 2).
Proof. exact (proj2 (proj2 (proj2 (EncoderDecoder_init_dims _ _ _ _ _ _ _ _ toy_model_init)))). Qed.

Lemma source_2x1_in_range :
  Spec.ids_in_range Examples.source_2x1 (rows2 (Examples.table 3)).
Proof. intros i j Hi Hj. simpl in *. lia. Qed.

Lemma target_3x1_in_range :
  Spec.ids_in_range Examples.target_3x1 (rows2 (Examples.table 2)).
Proof.
  intros i j Hi Hj. simpl in *. destruct (i =? 0)%nat; lia.
Qed.

Lemma target_1x1_in_range :
  Spec.ids_in_range Examples.target_1x1 (rows2 (Examples.table 2)).
Proof. intros i j Hi Hj. simpl in *. lia. Qed.

(** The example model runs on the example inputs, whatever the teacher
    forcing and the random draws. *)
Lemma toy_rollout_ok training rng teacher_forcing (n : nat) :
  (n <= 2)%nat ->
  exists enc_outputs ls,
    rollout Examples.toy_model training rng Examples.source_2x1
      Examples.target_3x1 teacher_forcing n = Some (enc_outputs, ls).
Proof.
  intros Hn. destruct toy_model_contracts as [Hc1 Hc2].
  destruct (rollout_ok Examples.toy_model 1 (Examples.table 3)
              (Examples.table 2) toy_model_dims Hc1 Hc2 training rng
              Examples.source_2x1 Examples.target_3x1 teacher_forcing n)
    as (eo & ls & H & _);
    try (simpl; lia); try reflexivity.
  - exact source_2x1_in_range.
  - exact target_3x1_in_range.
  - eauto.
Qed.

End ExampleFacts.

Section ShapeSafetyClaim.

Import encoder_decoder.

(** C9: a model which [EncoderDecoder.__init__] builds has a positive
    [rnn_units], and the dimensions of its layers agree: encoder outputs of
    [2 * rnn_units] features, an attention input of [3 * rnn_units], and a
    recurrent decoder input of [2 * rnn_units + embed_dim]
    ([Spec.model_dims]).  On a source and a target of at least one position
    and one batch element, with the same batch size and ids inside the
    tables, and with recurrent layers that return the shapes of [nn.GRU],
    the forward pass succeeds and returns a tensor of shape
    [(target_len, batch_size, target_vocab_size)]. *)
Theorem forward_shape_safe dev Ws Wt rnn_units attn_units dropout i M
    training rng (source target : ten2 Z) teacher_forcing :
  EncoderDecoder_init dev Ws Wt rnn_units attn_units dropout i = Some M ->
  Spec.GRU_contract (enc_gru (encoder M)) ->
  Spec.GRU_contract (dec_rnn (decoder M)) ->
  (1 <= rows2 source)%nat -> (1 <= cols2 source)%nat ->
  (1 <= rows2 target)%nat -> cols2 target = cols2 source ->
  Spec.ids_in_range source (rows2 Ws) ->
  Spec.ids_in_range target (rows2 Wt) ->
  (0 < rnn_units)%Z /\
  Spec.model_dims M (Z.to_nat rnn_units) Ws Wt /\
  exists outputs,
    forward M training rng source target teacher_forcing = Some outputs /\
    shape3 outputs = (rows2 target, cols2 source, rows2 Wt).
Proof.
  intros Hinit Hc1 Hc2 HS HB HT Hcols Hrs Hrt.
  apply EncoderDecoder_init_dims in Hinit as (Hu & _ & _ & Hdims).
  split; [exact Hu|]. split; [exact Hdims|].
  exact (forward_ok M (Z.to_nat rnn_units) Ws Wt Hdims Hc1 Hc2 training rng
           source target teacher_forcing HS HB HT Hcols Hrs Hrt).
Qed.

(** The example model on a source of two positions and a target of
    three. *)
Lemma forward_shape_safe_witness :
  exists outputs,
    forward Examples.toy_model true (Examples.rng_const (/ 2))
      Examples.source_2x1 Examples.target_3x1 (/ 2) = Some outputs /\
    shape3 outputs = (3%nat, 1%nat, 2%nat).
Proof.
  destruct toy_model_contracts as [Hc1 Hc2].
  destruct (forward_shape_safe cpu (Examples.table 3) (Examples.table 2) 1 2
              (/ 2) Examples.toy_init Examples.toy_model true
              (Examples.rng_const (/ 2)) Examples.source_2x1
              Examples.target_3x1 (/ 2) toy_model_init Hc1 Hc2)
    as (_ & _ & outputs & Hf & Hs).
  - simpl; lia.
  - simpl; lia.
  - simpl; lia.
  - reflexivity.
  - exact source_2x1_in_range.
  - exact target_3x1_in_range.
  - exists outputs. split; [exact Hf | exact Hs].
Defined.

End ShapeSafetyClaim.

Section TeacherForcingClaims.

Import encoder_decoder.

(** Iteration 2 of the example rollout with teacher forcing 1 is handed
    [target[1]]. *)
Lemma teacher_forcing_one_feeds_target_witness :
  exists enc_outputs ls,
    rollout Examples.toy_model true (Examples.rng_const 0)
      Examples.source_2x1 Examples.target_3x1 1 1 = Some (enc_outputs, ls) /\
    select2 Examples.target_3x1 1 = Some (ls_out ls).
Proof.
  destruct (toy_rollout_ok true (Examples.rng_const 0) 1 1) as (eo & ls & H);
    [lia|].
  exists eo, ls. split; [exact H|].
  apply (teacher_forcing_one_feeds_target Examples.toy_model true
           (Examples.rng_const 0) Examples.source_2x1 Examples.target_3x1)
    with (t := 2%nat) (enc_outputs := eo).
  - intros t. simpl. lra.
  - lia.
  - exact H.
Defined.

(** C3: with teacher forcing 0 and draws of [random.random()] in [0, 1),
    iteration 1 is handed the seed [target[0]], and the token which
    iteration [t >= 2] is handed is the arg-max, row by row, of the logits
    which the decoder returned in iteration [t - 1]: for every batch
    element an id below the number of logits at which the logits of that
    element are largest (the first such id). *)
Theorem teacher_forcing_zero_feeds_argmax M training rng source target :
  (forall t, 0 <= random_random rng t < 1) ->
  (forall enc_outputs ls,
      rollout M training rng source target 0 0 = Some (enc_outputs, ls) ->
      select2 target 0 = Some (ls_out ls)) /\
  (forall t enc_outputs ls,
      (2 <= t)%nat ->
      rollout M training rng source target 0 (t - 1) = Some (enc_outputs, ls) ->
      exists ls0 context logits state,
        rollout M training rng source target 0 (t - 2)
          = Some (enc_outputs, ls0) /\
        _compute_context M training (attn_mask rng (t - 1)) (ls_state ls0)
          enc_outputs = Some context /\
        Decoder_forward (decoder M) training (dec_mask rng (t - 1))
          (ls_out ls0) (ls_state ls0) context = Some (logits, state) /\
        max1_indices logits = Some (ls_out ls) /\
        len1 (ls_out ls) = rows2 logits /\
        forall b,
          (0 <= at1 (ls_out ls) b < Z.of_nat (cols2 logits))%Z /\
          (forall v, (v < cols2 logits)%nat ->
             at2 logits b v <= at2 logits b (Z.to_nat (at1 (ls_out ls) b))) /\
          (forall v, (v < Z.to_nat (at1 (ls_out ls) b))%nat ->
             at2 logits b v < at2 logits b (Z.to_nat (at1 (ls_out ls) b)))).
Proof.
  intros Hdraw. split.
  - intros enc_outputs ls H. apply rollout_0_inv in H. exact H.
  - intros t enc_outputs ls Ht Hroll.
    destruct t as [|[|n]]; [lia | lia |].
    replace (S (S n) - 1)%nat with (S n) in * by lia.
    replace (S (S n) - 2)%nat with n by lia.
    apply rollout_S_inv in Hroll as (ls0 & Hroll0 & Hbody).
    apply loop_body_inv in Hbody
      as (context & logits & state & Hc & Hd & _ & _ & Hout).
    rewrite Rlt_dec_false in Hout by apply Hdraw.
    exists ls0, context, logits, state.
    split; [exact Hroll0|]. split; [exact Hc|]. split; [exact Hd|].
    split; [exact Hout|]. apply max1_indices_inv. exact Hout.
Qed.

(** Iteration 2 of the example rollout with teacher forcing 0. *)
Lemma teacher_forcing_zero_feeds_argmax_witness :
  exists enc_outputs ls logits,
    rollout Examples.toy_model true (Examples.rng_const (/ 2))
      Examples.source_2x1 Examples.target_3x1 0 1 = Some (enc_outputs, ls) /\
    max1_indices logits = Some (ls_out ls) /\
    forall v, (v < cols2 logits)%nat ->
      at2 logits 0 v <= at2 logits 0 (Z.to_nat (at1 (ls_out ls) 0)).
Proof.
  destruct (toy_rollout_ok true (Examples.rng_const (/ 2)) 0 1)
    as (eo & ls & H); [lia|].
  assert (forall t, 0 <= random_random (Examples.rng_const (/ 2)) t < 1) as Hd
      by (intros t; simpl; lra).
  destruct (proj2 (teacher_forcing_zero_feeds_argmax Examples.toy_model true
                     (Examples.rng_const (/ 2)) Examples.source_2x1
                     Examples.target_3x1 Hd) 2%nat eo ls (le_n 2) H)
    as (ls0 & context & logits & state & _ & _ & _ & Hmax & _ & Hlargest).
  exists eo, ls, logits. split; [exact H|]. split; [exact Hmax|].
  exact (proj1 (proj2 (Hlargest O))).
Defined.

(** C10: the teacher-forcing probability is compared with the draw and
    nothing else: with draws in [0, 1), every probability of at least 1
    gives the forward pass of probability 1, and every probability of at
    most 0 gives the forward pass of probability 0, results and errors
    alike. *)
Theorem teacher_forcing_outside_unit_interval M training rng source target :
  (forall t, 0 <= random_random rng t < 1) ->
  (forall p, 1 <= p ->
     forward M training rng source target p
       = forward M training rng source target 1) /\
  (forall p, p <= 0 ->
     forward M training rng source target p
       = forward M training rng source target 0).
Proof.
  intros Hdraw.
  assert (forall p q,
            (forall t, (if Rlt_dec (random_random rng t) p then true else false)
                       = (if Rlt_dec (random_random rng t) q then true else false)) ->
            forward M training rng source target p
              = forward M training rng source target q) as Hext.
  { intros p q Hpq. unfold forward.
    destruct (Encoder_forward _ _ _ _) as [[enc_outputs state]|]; [|reflexivity].
    cbn [mbind option_bind].
    destruct (select2 target 0) as [out|]; [|reflexivity].
    cbn [mbind option_bind].
    rewrite (loop_ext (loop_body M training rng enc_outputs target p)
               (loop_body M training rng enc_outputs target q)); [reflexivity|].
    intros t ls0 _. unfold loop_body. rewrite (Hpq t). reflexivity. }
  split; intros p Hp; apply Hext; intros t; specialize (Hdraw t).
  - rewrite !Rlt_dec_true by lra. reflexivity.
  - rewrite !Rlt_dec_false by lra. reflexivity.
Qed.

(** Probabilities 2 and -1 on the example model. *)
Lemma teacher_forcing_outside_unit_interval_witness :
  forward Examples.toy_model true (Examples.rng_const (/ 2))
    Examples.source_2x1 Examples.target_3x1 2
  = forward Examples.toy_model true (Examples.rng_const (/ 2))
      Examples.source_2x1 Examples.target_3x1 1 /\
  forward Examples.toy_model true (Examples.rng_const (/ 2))
    Examples.source_2x1 Examples.target_3x1 (-1)
  = forward Examples.toy_model true (Examples.rng_const (/ 2))
      Examples.source_2x1 Examples.target_3x1 0.
Proof.
  assert (forall t, 0 <= random_random (Examples.rng_const (/ 2)) t < 1) as Hd
      by (intros t; simpl; lra).
  destruct (teacher_forcing_outside_unit_interval Examples.toy_model true
              (Examples.rng_const (/ 2)) Examples.source_2x1
              Examples.target_3x1 Hd) as [H1 H0].
  split; [apply H1 | apply H0]; lra.
Defined.

End TeacherForcingClaims.

(** ** The output tensor *)

Section Outputs.

Import encoder_decoder.

(** C4: the tensor which [forward] returns has the shape
    [(max_len, batch_size, target_vocab_size)], and its position 0 is all
    zeros, whatever the inputs and the teacher forcing: the tensor starts
    as zeros and the iterations write positions from 1 on. *)
Theorem forward_position_zero_is_zero M training rng source target
    teacher_forcing (outputs : ten3 R) :
  forward M training rng source target teacher_forcing = Some outputs ->
  shape3 outputs = (rows2 target, cols2 source, target_vocab_size M) /\
  (1 <= rows2 target)%nat /\
  forall b v, at3 outputs 0 b v = 0.
Proof.
  unfold forward. intros H.
  destruct (Encoder_forward _ _ _ _) as [[enc_outputs state]|]; [|discriminate].
  cbn [mbind option_bind] in H.
  destruct (select2 target 0) as [out|] eqn:Hsel; [|discriminate].
  cbn [mbind option_bind] in H.
  destruct (loop _ _ _) as [ls|] eqn:Hloop; [|discriminate].
  cbn [mbind option_bind] in H. injection H as <-.
  assert (1 <= rows2 target)%nat as HT.
  { unfold select2, index_of in Hsel. simpl in Hsel.
    destruct (0 <? Z.of_nat (rows2 target))%Z eqn:E; [|discriminate].
    apply Z.ltb_lt in E. lia. }
  pose (P := fun ls : loop_state =>
               shape3 (ls_outputs ls)
                 = (rows2 target, cols2 source, target_vocab_size M) /\
               forall b v, at3 (ls_outputs ls) 0 b v = 0).
  assert (P ls) as [Hshape Hzero].
  { apply (loop_invariant P _ _ _ _) with (3 := Hloop).
    - intros t ls0 ls1 Hin [Hs Hz] Hbody.
      apply in_seq in Hin.
      apply loop_body_inv in Hbody
        as (context & logits & st & _ & _ & Hset & _).
      apply setitem3_inv in Hset as (_ & S0 & S1 & S2 & Hother).
      unfold shape3 in *. split; [congruence|].
      intros b v. rewrite Hother by lia. apply Hz.
    - split; reflexivity. }
  split; [exact Hshape|]. split; [exact HT | exact Hzero].
Qed.

(** The example rollout of three target positions. *)
Lemma forward_position_zero_is_zero_witness :
  exists outputs,
    forward Examples.toy_model true (Examples.rng_const (/ 2))
      Examples.source_2x1 Examples.target_3x1 (/ 2) = Some outputs /\
    at3 outputs 0 0 0 = 0 /\ at3 outputs 0 0 1 = 0.
Proof.
  destruct toy_model_contracts as [Hc1 Hc2].
  destruct (forward_ok Examples.toy_model 1 (Examples.table 3)
              (Examples.table 2) toy_model_dims Hc1 Hc2 true
              (Examples.rng_const (/ 2)) Examples.source_2x1
              Examples.target_3x1 (/ 2)) as (outputs & Hf & _);
    try (simpl; lia); try reflexivity.
  - exact source_2x1_in_range.
  - exact target_3x1_in_range.
  - exists outputs. split; [exact Hf|].
    destruct (forward_position_zero_is_zero _ _ _ _ _ _ _ Hf) as (_ & _ & Hz).
    split; apply Hz.
Defined.

(** C8: on a batch of one element and a target of one position, the
    source being encoded without error, [forward] returns the zero tensor
    of shape [(1, 1, target_vocab_size)]: the loop makes no iteration, so
    neither the attention nor the decoder is called. *)
Theorem forward_single_start_token M training rng source target
    teacher_forcing enc_outputs state :
  cols2 source = 1%nat -> rows2 target = 1%nat ->
  Encoder_forward (encoder M) training (enc_mask rng) source
    = Some (enc_outputs, state) ->
  forward M training rng source target teacher_forcing
    = Some (zeros3 1 1 (target_vocab_size M)) /\
  loop (loop_body M training rng enc_outputs target teacher_forcing)
       (seq 1 (rows2 target - 1))
  = fun ls => Some ls.
Proof.
  intros HB HT Henc. unfold forward. rewrite Henc, HT, HB.
  cbn [mbind option_bind].
  change (select2 target 0) with (select2 target (Z.of_nat 0)).
  rewrite select2_nat by lia. split; reflexivity.
Qed.

(** The example model with the failing decoder, on a target of one
    position. *)
Lemma forward_single_start_token_witness :
  forward Examples.broken_decoder_model true (Examples.rng_const (/ 2))
    Examples.source_2x1 Examples.target_1x1 (/ 2)
  = Some (zeros3 1 1 2).
Proof.
  destruct toy_model_contracts as [Hc1 _].
  destruct (Encoder_forward_ok Examples.toy_model 1 (Examples.table 3)
              (Examples.table 2) toy_model_dims Hc1 true Examples.keep_all2
              Examples.source_2x1) as (eo & st & He & _);
    try (simpl; lia).
  - exact source_2x1_in_range.
  - apply (forward_single_start_token Examples.broken_decoder_model true
             (Examples.rng_const (/ 2)) Examples.source_2x1
             Examples.target_1x1 (/ 2) eo st);
      [reflexivity | reflexivity | exact He].
Defined.

End Outputs.

(** ** Rejection of invalid configurations *)

Section Configuration.

Import encoder_decoder.

(** C6 (amended): [EncoderDecoder.__init__] raises on a dropout
    probability outside [0, 1], on an [rnn_units] that is not positive and
    on a negative [attn_units]; the checks are those of the constructors
    of the layers. *)
Theorem invalid_configuration_rejected dev Ws Wt rnn_units attn_units
    dropout i :
  dropout < 0 \/ 1 < dropout \/ (rnn_units <= 0)%Z \/ (attn_units < 0)%Z ->
  EncoderDecoder_init dev Ws Wt rnn_units attn_units dropout i = None.
Proof.
  intros Hbad.
  destruct (EncoderDecoder_init dev Ws Wt rnn_units attn_units dropout i)
    as [M|] eqn:Hinit; [|reflexivity].
  apply EncoderDecoder_init_dims in Hinit as (Hu & Ha & Hp & _).
  destruct Hbad as [H|[H|[H|H]]]; try lra; lia.
Qed.

(** A dropout probability of 2. *)
Lemma invalid_configuration_rejected_witness :
  EncoderDecoder_init cpu (Examples.table 3) (Examples.table 2) 1 2 2
    Examples.toy_init = None.
Proof.
  apply invalid_configuration_rejected. right. left. lra.
Defined.

(** C6 as stated fails for [attn_units = 0]: the model is built, and its
    forward pass succeeds. *)
Lemma zero_attention_units_accepted :
  (0 <= 0)%Z /\
  EncoderDecoder_init cpu (Examples.table 3) (Examples.table 2) 1 0 (/ 2)
    Examples.toy_init = Some Examples.no_attn_units_model /\
  exists outputs,
    forward Examples.no_attn_units_model true (Examples.rng_const (/ 2))
      Examples.source_2x1 Examples.target_3x1 (/ 2) = Some outputs.
Proof.
  assert (EncoderDecoder_init cpu (Examples.table 3) (Examples.table 2) 1 0
            (/ 2) Examples.toy_init = Some Examples.no_attn_units_model)
    as Hinit.
  { unfold EncoderDecoder_init, Encoder_init, Attention_init, Decoder_init.
    rewrite !Dropout_init_some by lra. reflexivity. }
  split; [lia|]. split; [exact Hinit|].
  destruct (EncoderDecoder_init_dims _ _ _ _ _ _ _ _ Hinit)
    as (_ & _ & _ & Hdims).
  destruct toy_model_contracts as [Hc1 Hc2].
  destruct (forward_ok Examples.no_attn_units_model _ _ _ Hdims Hc1 Hc2 true
              (Examples.rng_const (/ 2)) Examples.source_2x1
              Examples.target_3x1 (/ 2)) as (outputs & Hf & _);
    try (simpl; lia); try reflexivity.
  - exact source_2x1_in_range.
  - exact target_3x1_in_range.
  - eauto.
Qed.

End Configuration.

(** ** Dropout on the embedded token *)

Section EmbeddingDropout.

Lemma embedding2_inv (E : Embedding) (ids : ten2 Z) (e : ten3 R) :
  embedding2 E ids = Some e ->
  e = Ten3 (rows2 ids) (cols2 ids) (cols2 (emb_weight E))
        (fun i j k => at2 (emb_weight E) (Z.to_nat (at2 ids i j)) k).
Proof.
  unfold embedding2. intros H.
  destruct (forall_lt _ _); [|discriminate]. injection H as <-. reflexivity.
Qed.

Lemma cat2_1_at {A} (a b c : ten2 A) :
  cat2_1 a b = Some c ->
  cols2 c = (cols2 a + cols2 b)%nat /\
  forall i k, at2 c i k = if (k <? cols2 a)%nat then at2 a i k
                          else at2 b i (k - cols2 a).
Proof.
  unfold cat2_1. intros H.
  destruct (rows2 a =? rows2 b)%nat; [|discriminate].
  injection H as <-. split; reflexivity.
Qed.

(** C7 (amended): the LSTM decoder of [components.py] passes the embedded
    token through dropout before it is concatenated with the context and
    given to the recurrent layer; the GRU decoder of [encoder_decoder.py]
    concatenates the embedded token as the table holds it, in training
    mode too, and applies dropout in one place only: to the vector
    combined from the output of the recurrent layer, the context and the
    embedded token, which then goes through the dense layer to give the
    logits; the state it returns is that of the recurrent layer. *)
Theorem decoder_embedding_dropout :
  (forall (D : components.Decoder) training m_emb m_comb token context
          dec_hidden dec_cell result,
      components.Decoder_forward D training m_emb m_comb token context
        dec_hidden dec_cell = Some result ->
      exists embedded rnn_input out,
        components.Decoder_rnn_input D training m_emb token context
          = Some (embedded, rnn_input) /\
        lstm_call (components.dec_lstm D) rnn_input
          (Some (dec_hidden, dec_cell)) = Some out /\
        forall b k,
          (k < cols2 (emb_weight (components.dec_embedding D)))%nat ->
          at3 rnn_input 0 b k =
          let raw := at2 (emb_weight (components.dec_embedding D))
                       (Z.to_nat (at1 token b)) k in
          if training
          then drop (drop_p (components.dec_dropout D)) (m_emb O b k) raw
          else raw) /\
  (forall (D : encoder_decoder.Decoder) training m token dec_state context
          logits state,
      encoder_decoder.Decoder_forward D training m token dec_state context
        = Some (logits, state) ->
      exists embedded rnn_input output h combined,
        encoder_decoder.Decoder_rnn_input D token context
          = Some (embedded, rnn_input) /\
        gru_call (encoder_decoder.dec_rnn D) rnn_input
          (Some (unsqueeze0_2 dec_state)) = Some (output, h) /\
        (forall b k,
            (k < cols2 (emb_weight (encoder_decoder.dec_embedding D)))%nat ->
            at3 rnn_input 0 b k =
            at2 (emb_weight (encoder_decoder.dec_embedding D))
              (Z.to_nat (at1 token b)) k) /\
        (forall b k,
            at2 combined b k =
            if (k <? dim2 output)%nat then at3 output 0 b k
            else if (k <? dim2 output + dim2 context)%nat
                 then at3 context 0 b (k - dim2 output)
                 else at2 (emb_weight (encoder_decoder.dec_embedding D))
                        (Z.to_nat (at1 token b))
                        (k - (dim2 output + dim2 context))) /\
        (forall b k,
            at2 (dropout2 (encoder_decoder.dec_dropout D) training m combined)
              b k =
            if training
            then drop (drop_p (encoder_decoder.dec_dropout D)) (m b k)
                   (at2 combined b k)
            else at2 combined b k) /\
        linear2 (encoder_decoder.dec_fc D)
          (dropout2 (encoder_decoder.dec_dropout D) training m combined)
          = Some logits /\
        squeeze0 h = Some state).
Proof.
  split.
  - intros D training m_emb m_comb token context dec_hidden dec_cell result H.
    unfold components.Decoder_forward in H.
    destruct (components.Decoder_rnn_input _ _ _ _ _)
      as [[embedded rnn_input]|] eqn:Hin; [|discriminate].
    cbn [mbind option_bind] in H.
    destruct (lstm_call _ _ _) as [out|] eqn:Hcall; [|discriminate].
    exists embedded, rnn_input, out.
    split; [reflexivity|]. split; [exact Hcall|].
    intros b k Hk. unfold components.Decoder_rnn_input in Hin.
    destruct (embedding2 _ _) as [e|] eqn:He; [|discriminate].
    cbn [mbind option_bind] in Hin.
    destruct (cat3_2 _ _) as [x|] eqn:Hx; [|discriminate].
    cbn [mbind option_bind] in Hin. injection Hin as _ <-.
    apply cat3_2_inv in Hx as (_ & _ & _ & _ & _ & ->).
    apply embedding2_inv in He. subst e.
    destruct (dropout3_shape (components.dec_dropout D) training m_emb
                (Ten3 (rows2 (unsqueeze0_1 token)) (cols2 (unsqueeze0_1 token))
                   (cols2 (emb_weight (components.dec_embedding D)))
                   (fun i j k0 =>
                      at2 (emb_weight (components.dec_embedding D))
                        (Z.to_nat (at2 (unsqueeze0_1 token) i j)) k0)))
      as (_ & _ & ->).
    cbn [dim2]. apply Nat.ltb_lt in Hk. rewrite Hk.
    destruct training; reflexivity.
  - intros D training m token dec_state context logits state H.
    unfold encoder_decoder.Decoder_forward in H.
    destruct (encoder_decoder.Decoder_rnn_input _ _ _)
      as [[embedded rnn_input]|] eqn:Hin; [|discriminate].
    cbn [mbind option_bind] in H.
    destruct (gru_call _ _ _) as [[output h]|] eqn:Hcall; [|discriminate].
    cbn [mbind option_bind] in H.
    destruct (squeeze0 embedded) as [e'|] eqn:He'; [|discriminate].
    cbn [mbind option_bind] in H.
    destruct (squeeze0 output) as [o'|] eqn:Ho'; [|discriminate].
    cbn [mbind option_bind] in H.
    destruct (squeeze0 context) as [c'|] eqn:Hc'; [|discriminate].
    cbn [mbind option_bind] in H.
    destruct (cat2_1 o' c') as [k1|] eqn:Hk1; [|discriminate].
    cbn [mbind option_bind] in H.
    destruct (cat2_1 k1 e') as [k2|] eqn:Hk2; [|discriminate].
    cbn [mbind option_bind] in H.
    destruct (linear2 _ _) as [y|] eqn:Hy; [|discriminate].
    cbn [mbind option_bind] in H.
    destruct (squeeze0 h) as [h'|] eqn:Hh'; [|discriminate].
    cbn [mbind option_bind] in H. injection H as <- <-.
    exists embedded, rnn_input, output, h, k2.
    split; [reflexivity|]. split; [exact Hcall|].
    unfold encoder_decoder.Decoder_rnn_input in Hin.
    destruct (embedding2 _ _) as [e|] eqn:He; [|discriminate].
    cbn [mbind option_bind] in Hin.
    destruct (cat3_2 _ _) as [x|] eqn:Hx; [|discriminate].
    cbn [mbind option_bind] in Hin. injection Hin as <- <-.
    apply cat3_2_inv in Hx as (_ & _ & _ & _ & _ & Hxat).
    apply embedding2_inv in He. subst e.
    split.
    { intros b k Hk. rewrite Hxat. cbn [dim2 at3 unsqueeze0_1 at2].
      apply Nat.ltb_lt in Hk. rewrite Hk. reflexivity. }
    split.
    { apply squeeze0_inv in He' as (_ & _ & _ & Eat).
      apply squeeze0_inv in Ho' as (_ & _ & Oc & Oat).
      apply squeeze0_inv in Hc' as (_ & _ & Cc & Cat).
      apply cat2_1_at in Hk1 as (K1c & K1at).
      apply cat2_1_at in Hk2 as (_ & K2at).
      intros b k. rewrite K2at, K1c, K1at, Oc, Cc, Eat, Oat, Cat.
      cbn [at3 unsqueeze0_1 at2].
      destruct (k <? dim2 output)%nat eqn:E1;
        destruct (k <? dim2 output + dim2 context)%nat eqn:E2;
        try reflexivity.
      apply Nat.ltb_lt in E1. apply Nat.ltb_ge in E2. lia. }
    split; [intros b k; destruct training; reflexivity|].
    split; [exact Hy | exact Hh'].
Qed.

(** A step of the example LSTM decoder whose mask drops every entry of
    the embedding: the recurrent layer receives 0 where the table holds
    1. *)
Lemma decoder_embedding_dropout_witness :
  exists embedded rnn_input,
    components.Decoder_rnn_input Examples.lstm_decoder true Examples.drop_all3
      Examples.token_1 Examples.context_1x1x2 = Some (embedded, rnn_input) /\
    at2 (Examples.table 2) 1 0 = 1 /\
    at3 rnn_input 0 0 0 = 0.
Proof.
  assert (exists result,
            components.Decoder_forward Examples.lstm_decoder true
              Examples.drop_all3 Examples.keep_all2 Examples.token_1
              Examples.context_1x1x2 (zeros3 1 1 1) (zeros3 1 1 1)
            = Some result) as [result Hf].
  { eexists. reflexivity. }
  destruct (proj1 decoder_embedding_dropout _ _ _ _ _ _ _ _ _ Hf)
    as (embedded & rnn_input & out & Hin & _ & Hval).
  exists embedded, rnn_input. split; [exact Hin|].
  split; [simpl; lra|].
  rewrite (Hval O O) by (simpl; lia).
  cbv zeta. unfold drop, Examples.drop_all3.
  destruct (Req_dec_T _ _); reflexivity.
Defined.

(** C7 as stated fails on the GRU decoder: in a training-mode step of the
    example decoder, whose dropout probability is 1/2, the recurrent layer
    receives the table entry 1 of token 1, which dropout would have turned
    into 0 or into 2. *)
Lemma gru_decoder_feeds_raw_embedding :
  (exists result,
      encoder_decoder.Decoder_forward
        (encoder_decoder.decoder Examples.toy_model) true Examples.keep_all2
        Examples.token_1 Examples.state_1x1 Examples.context_1x1x2
      = Some result) /\
  exists embedded rnn_input,
    encoder_decoder.Decoder_rnn_input
      (encoder_decoder.decoder Examples.toy_model)
      Examples.token_1 Examples.context_1x1x2 = Some (embedded, rnn_input) /\
    at3 rnn_input 0 0 0 = 1 /\
    forall keep,
      drop (drop_p (encoder_decoder.dec_dropout
                      (encoder_decoder.decoder Examples.toy_model))) keep 1
      <> at3 rnn_input 0 0 0.
Proof.
  split.
  { eexists. reflexivity. }
  eexists _, _. split; [reflexivity|].
  assert (INR 1 = 1) as H1 by (simpl; lra).
  split; [simpl; lra|].
  intros keep. simpl. unfold drop.
  destruct (Req_dec_T (/ 2) 1); [lra|]. destruct keep; lra.
Qed.

End EmbeddingDropout.

(** * Further properties of the code *)

(** ** Ids outside the embedding table *)

Section OutOfVocabulary.

Lemma forall_lt_false (n : nat) (p : nat -> bool) (i : nat) :
  (i < n)%nat -> p i = false -> forall_lt n p = false.
Proof.
  induction n as [|n IH]; intros Hi Hp; [lia|]. simpl.
  destruct (Nat.eq_dec i n) as [->|Hne].
  - rewrite Hp. apply andb_false_r.
  - rewrite IH by (assumption || lia). reflexivity.
Qed.

Lemma embedding2_out_of_range (E : Embedding) (ids : ten2 Z) (i j : nat) :
  (i < rows2 ids)%nat -> (j < cols2 ids)%nat ->
  ~ (0 <= at2 ids i j < Z.of_nat (rows2 (emb_weight E)))%Z ->
  embedding2 E ids = None.
Proof.
  intros Hi Hj Hout. unfold embedding2.
  rewrite (forall_lt_false _ _ i Hi); [reflexivity|].
  apply (forall_lt_false _ _ j Hj). unfold id_in_range.
  apply andb_false_iff.
  destruct (Z.leb_spec 0 (at2 ids i j)); [right | left; reflexivity].
  apply Z.ltb_ge. lia.
Qed.

(** X1: Both encoders raise on a source that holds an id outside the source
    table, whatever the recurrent layer, the mode and the dropout mask. *)
Theorem encoder_rejects_unknown_id :
  (forall (E : encoder_decoder.Encoder) training m source i j,
      (i < rows2 source)%nat -> (j < cols2 source)%nat ->
      ~ (0 <= at2 source i j
         < Z.of_nat (rows2 (emb_weight (encoder_decoder.enc_embedding E))))%Z ->
      encoder_decoder.Encoder_forward E training m source = None) /\
  (forall (E : components.Encoder) training m source i j,
      (i < rows2 source)%nat -> (j < cols2 source)%nat ->
      ~ (0 <= at2 source i j
         < Z.of_nat (rows2 (emb_weight (components.enc_embedding E))))%Z ->
      components.Encoder_forward E training m source = None).
Proof.
  split; intros E training m source i j Hi Hj Hout.
  - unfold encoder_decoder.Encoder_forward.
    rewrite (embedding2_out_of_range _ _ i j Hi Hj Hout). reflexivity.
  - unfold components.Encoder_forward.
    rewrite (embedding2_out_of_range _ _ i j Hi Hj Hout). reflexivity.
Qed.

Lemma encoder_rejects_unknown_id_witness :
  encoder_decoder.Encoder_forward
    (encoder_decoder.encoder Examples.toy_model) true Examples.keep_all2
    Examples.source_bad = None /\
  components.Encoder_forward Examples.lstm_encoder true Examples.keep_all3
    Examples.source_bad = None.
Proof.
  split.
  - apply (proj1 encoder_rejects_unknown_id _ _ _ _ 1%nat 0%nat);
      simpl; lia.
  - apply (proj2 encoder_rejects_unknown_id _ _ _ _ 1%nat 0%nat);
      simpl; lia.
Defined.

(** X2: Both decoders raise on a batch of tokens one of which is outside the
    target table, whatever the state and the context. *)
Theorem decoder_rejects_unknown_token :
  (forall (D : encoder_decoder.Decoder) training m token dec_state context j,
      (j < len1 token)%nat ->
      ~ (0 <= at1 token j
         < Z.of_nat (rows2 (emb_weight (encoder_decoder.dec_embedding D))))%Z ->
      encoder_decoder.Decoder_forward D training m token dec_state context
        = None) /\
  (forall (D : components.Decoder) training m_emb m_comb token context
          dec_hidden dec_cell j,
      (j < len1 token)%nat ->
      ~ (0 <= at1 token j
         < Z.of_nat (rows2 (emb_weight (components.dec_embedding D))))%Z ->
      components.Decoder_forward D training m_emb m_comb token context
        dec_hidden dec_cell = None).
Proof.
  split.
  - intros D training m token dec_state context j Hj Hout.
    unfold encoder_decoder.Decoder_forward, encoder_decoder.Decoder_rnn_input.
    rewrite (embedding2_out_of_range _ (unsqueeze0_1 token) O j);
      [reflexivity | simpl; lia | exact Hj | exact Hout].
  - intros D training m_emb m_comb token context dec_hidden dec_cell j Hj Hout.
    unfold components.Decoder_forward, components.Decoder_rnn_input.
    rewrite (embedding2_out_of_range _ (unsqueeze0_1 token) O j);
      [reflexivity | simpl; lia | exact Hj | exact Hout].
Qed.

Lemma decoder_rejects_unknown_token_witness :
  encoder_decoder.Decoder_forward
    (encoder_decoder.decoder Examples.toy_model) true Examples.keep_all2
    Examples.token_9 Examples.state_1x1 Examples.context_1x1x2 = None /\
  components.Decoder_forward Examples.lstm_decoder true Examples.keep_all3
    Examples.keep_all2 Examples.token_9 Examples.context_1x1x2
    (zeros3 1 1 1) (zeros3 1 1 1) = None.
Proof.
  split.
  - apply (proj1 decoder_rejects_unknown_token _ _ _ _ _ _ 0%nat);
      simpl; lia.
  - apply (proj2 decoder_rejects_unknown_token _ _ _ _ _ _ _ _ 0%nat);
      simpl; lia.
Defined.

End OutOfVocabulary.

(** ** What a decoder step needs and returns *)

Section DecoderStep.

Import encoder_decoder.

Lemma gru_decoder_unknown_token (D : Decoder) training m token dec_state
    context (j : nat) :
  (j < len1 token)%nat ->
  ~ (0 <= at1 token j < Z.of_nat (rows2 (emb_weight (dec_embedding D))))%Z ->
  Decoder_forward D training m token dec_state context = None.
Proof.
  intros Hj Hout. unfold Decoder_forward, Decoder_rnn_input.
  rewrite (embedding2_out_of_range _ (unsqueeze0_1 token) O j);
    [reflexivity | simpl; lia | exact Hj | exact Hout].
Qed.

Lemma gru_decoder_forward_inv (D : Decoder) training m token dec_state context
    logits state :
  Decoder_forward D training m token dec_state context = Some (logits, state) ->
  dim0 context = 1%nat /\ dim1 context = len1 token /\
  rows2 logits = len1 token /\ cols2 logits = out_features (dec_fc D) /\
  (forall j, (j < len1 token)%nat ->
     (0 <= at1 token j < Z.of_nat (rows2 (emb_weight (dec_embedding D))))%Z).
Proof.
  intros H.
  assert (forall j, (j < len1 token)%nat ->
            (0 <= at1 token j
             < Z.of_nat (rows2 (emb_weight (dec_embedding D))))%Z) as Hrange.
  { intros j Hj.
    destruct (Z_le_dec 0 (at1 token j)) as [H0|H0];
      [destruct (Z_lt_dec (at1 token j)
                   (Z.of_nat (rows2 (emb_weight (dec_embedding D)))))
         as [H1|H1]; [lia|] |];
      rewrite (gru_decoder_unknown_token D training m token dec_state context j)
        in H by (assumption || lia); discriminate. }
  unfold Decoder_forward, Decoder_rnn_input in H.
  destruct (embedding2 _ _) as [e|] eqn:He; [|discriminate].
  cbn [mbind option_bind] in H.
  destruct (cat3_2 e context) as [x|] eqn:Hx; [|discriminate].
  cbn [mbind option_bind] in H.
  destruct (gru_call _ _ _) as [[o h]|]; [|discriminate].
  cbn [mbind option_bind] in H.
  destruct (squeeze0 e) as [e'|] eqn:He'; [|discriminate].
  cbn [mbind option_bind] in H.
  destruct (squeeze0 o) as [o'|] eqn:Ho'; [|discriminate].
  cbn [mbind option_bind] in H.
  destruct (squeeze0 context) as [c'|] eqn:Hc'; [|discriminate].
  cbn [mbind option_bind] in H.
  destruct (cat2_1 o' c') as [k1|] eqn:Hk1; [|discriminate].
  cbn [mbind option_bind] in H.
  destruct (cat2_1 k1 e') as [k2|] eqn:Hk2; [|discriminate].
  cbn [mbind option_bind] in H.
  destruct (linear2 _ _) as [y|] eqn:Hy; [|discriminate].
  cbn [mbind option_bind] in H.
  destruct (squeeze0 h) as [h'|]; [|discriminate].
  cbn [mbind option_bind] in H. injection H as <- <-.
  apply embedding2_inv in He. subst e.
  apply cat3_2_inv in Hx as (X0 & X1 & _).
  apply squeeze0_inv in He' as (_ & E1 & _).
  apply squeeze0_inv in Hc' as (C0 & C1 & _).
  apply cat2_1_inv in Hk1 as (K0 & K1 & _).
  apply cat2_1_inv in Hk2 as (K2 & K3 & _).
  apply linear2_inv in Hy as (_ & Y0 & Y1).
  destruct (dropout2_shape (dec_dropout D) training m k2) as [D0 _].
  simpl in *.
  split; [lia|]. split; [lia|]. split; [lia|]. split; [exact Y1 | exact Hrange].
Qed.

(** X3: A step of the GRU decoder that returns has been given tokens of the
    target table and a context of shape [(1, batch, _)], [batch] being the
    number of tokens; the logits it returns have one row per token and one
    column per output of the dense layer. *)
Theorem decoder_step_shapes (D : Decoder) training m token dec_state context
    logits state :
  Decoder_forward D training m token dec_state context = Some (logits, state) ->
  shape2 logits = (len1 token, out_features (dec_fc D)) /\
  dim0 context = 1%nat /\ dim1 context = len1 token /\
  forall j, (j < len1 token)%nat ->
    (0 <= at1 token j < Z.of_nat (rows2 (emb_weight (dec_embedding D))))%Z.
Proof.
  intros H. apply gru_decoder_forward_inv in H as (C0 & C1 & L0 & L1 & Hr).
  unfold shape2. rewrite L0, L1. auto.
Qed.

Lemma decoder_step_shapes_witness :
  exists logits state,
    Decoder_forward (decoder Examples.toy_model) true Examples.keep_all2
      Examples.token_1 Examples.state_1x1 Examples.context_1x1x2
    = Some (logits, state) /\
    shape2 logits = (1%nat, 2%nat).
Proof.
  assert (exists r,
            Decoder_forward (decoder Examples.toy_model) true
              Examples.keep_all2 Examples.token_1 Examples.state_1x1
              Examples.context_1x1x2 = Some r) as [[logits state] H].
  { eexists. reflexivity. }
  exists logits, state. split; [exact H|].
  exact (proj1 (decoder_step_shapes _ _ _ _ _ _ _ _ H)).
Defined.

End DecoderStep.

(** ** Inputs on which the rollout raises *)

Section RolloutErrors.

Import encoder_decoder.

(** X4: [forward] raises on a target without positions: there is no
    [target[0]] to start from. *)
Theorem forward_rejects_empty_target M training rng source target
    teacher_forcing :
  rows2 target = 0%nat ->
  forward M training rng source target teacher_forcing = None.
Proof.
  intros HT. unfold forward.
  destruct (Encoder_forward _ _ _ _) as [[enc_outputs state]|]; [|reflexivity].
  cbn [mbind option_bind]. unfold select2, index_of. rewrite HT. reflexivity.
Qed.

Lemma forward_rejects_empty_target_witness :
  forward Examples.toy_model true (Examples.rng_const (/ 2))
    Examples.source_2x1 Examples.target_0x1 (/ 2) = None.
Proof. apply forward_rejects_empty_target. reflexivity. Defined.

Lemma forward_first_step M training rng source target teacher_forcing outputs :
  (2 <= rows2 target)%nat ->
  forward M training rng source target teacher_forcing = Some outputs ->
  exists enc_outputs state out ls1,
    Encoder_forward (encoder M) training (enc_mask rng) source
      = Some (enc_outputs, state) /\
    select2 target 0 = Some out /\
    loop_body M training rng enc_outputs target teacher_forcing 1
      {| ls_outputs :=
           to (zeros3 (rows2 target) (cols2 source) (target_vocab_size M))
              (model_device M);
         ls_out := out; ls_state := state |} = Some ls1.
Proof.
  intros HT H. unfold forward in H.
  destruct (Encoder_forward _ _ _ _) as [[enc_outputs state]|]; [|discriminate].
  cbn [mbind option_bind] in H.
  destruct (select2 target 0) as [out|]; [|discriminate].
  cbn [mbind option_bind] in H.
  destruct (rows2 target) as [|[|k]] eqn:Hrows; [lia | lia |].
  replace (S (S k) - 1)%nat with (S k) in H by lia.
  cbn [seq loop] in H.
  destruct (loop_body _ _ _ _ _ _ _ _) as [ls1|] eqn:Hb; [|discriminate].
  exists enc_outputs, state, out, ls1. auto.
Qed.

(** X5: A forward pass over a target of at least two positions raises when a
    start token [target[0, j]] is outside the target table. *)
Theorem forward_rejects_unknown_start_token M training rng source target
    teacher_forcing (j : nat) :
  (2 <= rows2 target)%nat -> (j < cols2 target)%nat ->
  ~ (0 <= at2 target 0 j
     < Z.of_nat (rows2 (emb_weight (dec_embedding (decoder M)))))%Z ->
  forward M training rng source target teacher_forcing = None.
Proof.
  intros HT Hj Hout.
  destruct (forward M training rng source target teacher_forcing)
    as [outputs|] eqn:Hf; [|reflexivity].
  apply forward_first_step in Hf as (eo & st & out & ls1 & _ & Hsel & Hb);
    [|exact HT].
  change (select2 target 0) with (select2 target (Z.of_nat 0)) in Hsel.
  rewrite select2_nat in Hsel by lia. injection Hsel as <-.
  apply loop_body_inv in Hb as (c & logits & s' & _ & Hd & _).
  rewrite (gru_decoder_unknown_token _ _ _ _ _ _ j) in Hd;
    [discriminate | exact Hj | exact Hout].
Qed.

Lemma forward_rejects_unknown_start_token_witness :
  forward Examples.toy_model true (Examples.rng_const (/ 2))
    Examples.source_2x1 Examples.target_bad_seed (/ 2) = None.
Proof.
  apply (forward_rejects_unknown_start_token _ _ _ _ _ _ 0%nat);
    simpl; lia.
Defined.



End RolloutErrors.

(** ** Range of the encoder state *)

Section Ranges.

Lemma tanh_bounds (x : R) : -1 < tanh x < 1.
Proof.
  unfold tanh, sinh, cosh.
  pose proof (exp_pos x) as Ha. pose proof (exp_pos (- x)) as Hb.
  set (a := exp x) in *. set (b := exp (- x)) in *.
  assert (0 < (a + b) / 2) as Hc by lra.
  split.
  - apply (Rmult_lt_reg_r ((a + b) / 2)); [exact Hc|].
    unfold Rdiv at 2. rewrite Rmult_assoc, Rinv_l by lra. lra.
  - apply (Rmult_lt_reg_r ((a + b) / 2)); [exact Hc|].
    unfold Rdiv at 1. rewrite Rmult_assoc, Rinv_l by lra. lra.
Qed.

Lemma select3_inv {A} (x : ten3 A) (i : Z) (y : ten2 A) :
  select3 x i = Some y ->
  exists r, index_of (dim0 x) i = Some r /\
    rows2 y = dim1 x /\ cols2 y = dim2 x.
Proof.
  unfold select3. intros H.
  destruct (index_of (dim0 x) i) as [r|]; [|discriminate].
  injection H as <-. exists r. simpl. tauto.
Qed.

(** X7: The state which the GRU encoder returns is the hyperbolic tangent of
    a dense layer: every entry lies between -1 and 1.  It has one
    row per batch element of the recurrent state and one column per output
    of the dense layer; the recurrent state has to hold at least two
    slices (one per direction), and the outputs are those of the recurrent
    layer, called without an initial state. *)
Theorem encoder_state_bounded (E : encoder_decoder.Encoder) training m source
    enc_outputs state :
  encoder_decoder.Encoder_forward E training m source
    = Some (enc_outputs, state) ->
  (forall b k, -1 <= at2 state b k <= 1) /\
  cols2 state = out_features (encoder_decoder.enc_fc E) /\
  exists embedded h,
    embedding2 (encoder_decoder.enc_embedding E) source = Some embedded /\
    gru_call (encoder_decoder.enc_gru E) embedded None = Some (enc_outputs, h) /\
    (2 <= dim0 h)%nat /\ rows2 state = dim1 h.
Proof.
  unfold encoder_decoder.Encoder_forward. intros H.
  destruct (embedding2 _ _) as [e|] eqn:He; [|discriminate].
  cbn [mbind option_bind] in H.
  destruct (gru_call _ _ _) as [[o h]|] eqn:Hcall; [|discriminate].
  cbn [mbind option_bind] in H.
  destruct (select3 h (-2)) as [s1|] eqn:Hs1; [|discriminate].
  cbn [mbind option_bind] in H.
  destruct (select3 h (-1)) as [s2|] eqn:Hs2; [|discriminate].
  cbn [mbind option_bind] in H.
  destruct (cat2_1 s1 s2) as [c|] eqn:Hc; [|discriminate].
  cbn [mbind option_bind] in H.
  destruct (linear2 _ _) as [y|] eqn:Hy; [|discriminate].
  cbn [mbind option_bind] in H. injection H as <- <-.
  split.
  { intros b k. simpl. pose proof (tanh_bounds (at2 y b k)). lra. }
  apply linear2_inv in Hy as (_ & Y0 & Y1).
  destruct (dropout2_shape (encoder_decoder.enc_dropout E) training m c)
    as [D0 _].
  apply cat2_1_inv in Hc as (_ & C0 & _).
  apply select3_inv in Hs1 as (r & Hr & S0 & _).
  split; [exact Y1|].
  exists e, h. split; [reflexivity|]. split; [exact Hcall|].
  split.
  - unfold index_of in Hr. change (0 <=? -2)%Z with false in Hr.
    cbv iota in Hr.
    destruct (- Z.of_nat (dim0 h) <=? -2)%Z eqn:E2; [|discriminate].
    apply Z.leb_le in E2. lia.
  - simpl. congruence.
Qed.

Lemma encoder_state_bounded_witness :
  exists enc_outputs state,
    encoder_decoder.Encoder_forward
      (encoder_decoder.encoder Examples.toy_model) true Examples.keep_all2
      Examples.source_2x1 = Some (enc_outputs, state) /\
    -1 <= at2 state 0 0 <= 1.
Proof.
  destruct toy_model_contracts as [Hc1 _].
  destruct (Encoder_forward_ok Examples.toy_model 1 (Examples.table 3)
              (Examples.table 2) toy_model_dims Hc1 true Examples.keep_all2
              Examples.source_2x1) as (eo & st & He & _);
    try (simpl; lia).
  - exact source_2x1_in_range.
  - exists eo, st. split; [exact He|].
    apply (proj1 (encoder_state_bounded _ _ _ _ _ _ He)).
Defined.

End Ranges.

(** ** The scores of the summation variant *)

Section SummationScores.

Lemma sumR_const (n : nat) (c : R) : sumR n (fun _ => c) = INR n * c.
Proof.
  induction n as [|n IH].
  - simpl. lra.
  - cbn [sumR]. rewrite IH, S_INR. lra.
Qed.

Lemma sumR_bounds (n : nat) (f : nat -> R) (lo hi : R) :
  (forall i, (i < n)%nat -> lo <= f i <= hi) ->
  INR n * lo <= sumR n f <= INR n * hi.
Proof.
  intros Hf. rewrite <- !sumR_const. split; apply sumR_le; intros i Hi;
    apply Hf; exact Hi.
Qed.

(** The weights of the summation variant are the softmax of the sums,
    over the outputs of the dense layer, of hyperbolic tangents. *)
Lemma gru_attention_scores (A : encoder_decoder.Attention) training m
    (dec_state : ten2 R) (enc_outputs : ten3 R) (w : ten2 R) :
  encoder_decoder.Attention_forward A training m dec_state enc_outputs = Some w ->
  exists l, w = softmax2_1 (sum3_2 (tanh3 l)) /\
    dim0 l = rows2 dec_state /\ dim1 l = dim0 enc_outputs /\
    dim2 l = out_features (encoder_decoder.attn_fc A).
Proof.
  unfold encoder_decoder.Attention_forward. intros H.
  destruct (cat3_2 _ _) as [c|] eqn:Hc; [|discriminate].
  cbn [mbind option_bind] in H.
  destruct (linear3 _ _) as [l|] eqn:Hl; [|discriminate].
  cbn [mbind option_bind] in H. injection H as <-.
  apply cat3_2_inv in Hc. apply linear3_inv in Hl.
  destruct (dropout3_shape (encoder_decoder.attn_dropout A) training m c)
    as (D0 & D1 & D2).
  exists l. split; [reflexivity|]. simpl in *. repeat split; lia.
Qed.

(** X9: The scores of the summation variant are bounded by the number of
    outputs of its dense layer: the weights are the softmax of a score
    matrix with one row per batch element and one column per source
    position, and every score, a sum of [units] hyperbolic tangents, lies
    between [- units] and [units]. *)
Theorem summation_scores_bounded (A : encoder_decoder.Attention)
    training m dec_state enc_outputs w :
  encoder_decoder.Attention_forward A training m dec_state enc_outputs
    = Some w ->
  exists scores,
    w = softmax2_1 scores /\
    shape2 scores = (rows2 dec_state, dim0 enc_outputs) /\
    forall b s,
      - INR (out_features (encoder_decoder.attn_fc A))
        <= at2 scores b s
        <= INR (out_features (encoder_decoder.attn_fc A)).
Proof.
  intros H.
  apply gru_attention_scores in H as (l & -> & L0 & L1 & L2).
  exists (sum3_2 (tanh3 l)). split; [reflexivity|].
  split; [unfold shape2; simpl; congruence|].
  intros b s. simpl. rewrite <- L2.
  destruct (sumR_bounds (dim2 l) (fun k => tanh (at3 l b s k)) (-1) 1)
    as [Hlo Hhi].
  { intros k _. pose proof (tanh_bounds (at3 l b s k)). lra. }
  split; lra.
Qed.

Lemma summation_scores_bounded_witness :
  exists w scores,
    encoder_decoder.Attention_forward Examples.gru_attention true
      Examples.keep_all3 Examples.state_1x1 Examples.enc_outputs_two = Some w /\
    w = softmax2_1 scores /\
    - INR 4 <= at2 scores 0 1 <= INR 4.
Proof.
  destruct (summation_scores_bounded Examples.gru_attention true
              Examples.keep_all3 Examples.state_1x1 Examples.enc_outputs_two
              _ eq_refl) as (scores & Hw & _ & Hb).
  eexists _, scores. split; [reflexivity|]. split; [exact Hw | apply Hb].
Defined.

(** X10: With a dense layer without outputs ([attn_units = 0]) every score is
    an empty sum: the weights are uniform, [1 / S] for a source of [S]
    positions, and the context vector is the mean of the encoder
    outputs. *)
Theorem zero_units_attention_is_uniform (M : encoder_decoder.EncoderDecoder)
    training m dec_state enc_outputs context :
  out_features (encoder_decoder.attn_fc (encoder_decoder.attention M)) = 0%nat ->
  (1 <= dim0 enc_outputs)%nat ->
  encoder_decoder._compute_context M training m dec_state enc_outputs
    = Some context ->
  exists w,
    encoder_decoder.Attention_forward (encoder_decoder.attention M) training m
      dec_state enc_outputs = Some w /\
    (forall b s, at2 w b s = / INR (dim0 enc_outputs)) /\
    (forall b k,
        at3 context 0 b k =
        sumR (dim0 enc_outputs) (fun s => at3 enc_outputs s b k)
          / INR (dim0 enc_outputs)).
Proof.
  intros Hzero _ H. apply compute_context_inv in H as (w & Hw & _ & ->).
  exists w. split; [exact Hw|].
  apply gru_attention_scores in Hw as (l & -> & L0 & L1 & L2).
  rewrite Hzero in L2.
  assert (forall b s,
            at2 (softmax2_1 (sum3_2 (tanh3 l))) b s = / INR (dim0 enc_outputs))
    as Hunif.
  { intros b s. simpl. rewrite L2, L1. simpl. rewrite exp_0.
    rewrite sumR_const. unfold Rdiv. rewrite Rmult_1_r, Rmult_1_l.
    reflexivity. }
  split; [exact Hunif|].
  intros b k. cbn [at3]. change (cols2 (softmax2_1 (sum3_2 (tanh3 l))))
    with (dim1 l). rewrite L1.
  unfold Rdiv. rewrite <- sumR_scale. apply sumR_ext. intros s _.
  rewrite Hunif. lra.
Qed.

Lemma zero_units_attention_is_uniform_witness :
  exists context,
    encoder_decoder._compute_context Examples.no_attn_units_model true
      Examples.keep_all3 Examples.state_1x1 Examples.enc_outputs_two
    = Some context /\
    at3 context 0 0 1 = (1 + 2) / 2.
Proof.
  eexists. split; [reflexivity|].
  destruct (zero_units_attention_is_uniform Examples.no_attn_units_model true
              Examples.keep_all3 Examples.state_1x1 Examples.enc_outputs_two
              _ eq_refl (le_S _ _ (le_n 1)) eq_refl) as (w & _ & _ & Hctx).
  rewrite Hctx. simpl. lra.
Defined.

End SummationScores.

(** ** When the attention raises, and how its two variants are related *)

Section AttentionShapes.

(** X11: The summation variant returns weights exactly when the decoder state
    has one row per batch element of the encoder outputs and the features
    of state and encoder outputs together are the inputs of the dense
    layer; otherwise it raises. *)
Theorem attention_returns_iff_shapes_match (A : encoder_decoder.Attention)
    training m (dec_state : ten2 R) (enc_outputs : ten3 R) :
  (exists w,
      encoder_decoder.Attention_forward A training m dec_state enc_outputs
        = Some w) <->
  rows2 dec_state = dim1 enc_outputs /\
  (cols2 dec_state + dim2 enc_outputs)%nat
    = in_features (encoder_decoder.attn_fc A).
Proof.
  unfold encoder_decoder.Attention_forward. split.
  - intros [w H].
    destruct (cat3_2 _ _) as [c|] eqn:Hc; [|discriminate].
    cbn [mbind option_bind] in H.
    destruct (linear3 _ _) as [l|] eqn:Hl; [|discriminate].
    apply cat3_2_inv in Hc as (C0 & _ & _ & _ & C2 & _).
    apply linear3_inv in Hl as (L & _).
    destruct (dropout3_shape (encoder_decoder.attn_dropout A) training m c)
      as (_ & _ & D2).
    simpl in *. split; [exact C0 | lia].
  - intros [Hb Hf].
    destruct (cat3_2_ok (repeat_1n1 (dim0 enc_outputs) (unsqueeze1_2 dec_state))
                (permute102 enc_outputs)) as (c & Hc & _ & _ & C2);
      [simpl; lia | simpl; lia |].
    rewrite Hc. cbn [mbind option_bind].
    destruct (dropout3_shape (encoder_decoder.attn_dropout A) training m c)
      as (_ & _ & D2).
    destruct (linear3_ok (encoder_decoder.attn_fc A)
                (dropout3 (encoder_decoder.attn_dropout A) training m c))
      as (y & Hy & _); [simpl in *; lia|].
    rewrite Hy. cbn [mbind option_bind]. eauto.
Qed.

(** X12: The summation variant is the learned-projection variant whose second
    dense layer has weights 1 and bias 0: on the same inputs, with the same
    first layer and dropout, both raise or both return weights with the
    same shape and the same entries. *)
Theorem summation_is_unit_projection (A : encoder_decoder.Attention)
    training m (dec_state : ten2 R) (enc_outputs : ten3 R) :
  let A' := {| components.attn_in := encoder_decoder.attn_in A;
               components.attn_fc1 := encoder_decoder.attn_fc A;
               components.attn_fc2 :=
                 Examples.lin_ones
                   (out_features (encoder_decoder.attn_fc A)) 1;
               components.attn_dropout := encoder_decoder.attn_dropout A |} in
  match encoder_decoder.Attention_forward A training m dec_state enc_outputs,
        components.Attention_forward A' training m dec_state enc_outputs with
  | Some w, Some w' =>
      shape2 w = shape2 w' /\ forall b s, at2 w b s = at2 w' b s
  | None, None => True
  | _, _ => False
  end.
Proof.
  intros A'. unfold encoder_decoder.Attention_forward,
    components.Attention_forward. cbn [A' components.attn_dropout
    components.attn_fc1 components.attn_fc2].
  destruct (cat3_2 _ _) as [c|]; [|exact I].
  cbn [mbind option_bind].
  destruct (linear3 (encoder_decoder.attn_fc A) _) as [l|] eqn:Hl; [|exact I].
  cbn [mbind option_bind].
  apply linear3_inv in Hl as (_ & _ & _ & L2).
  unfold linear3. cbn [tanh3 dim2 Examples.lin_ones in_features].
  rewrite L2, Nat.eqb_refl. cbn [mbind option_bind].
  unfold squeeze_last. cbn [dim2 Examples.lin_ones out_features Nat.eqb].
  cbn [mbind option_bind].
  split; [reflexivity|].
  intros b s.
  assert (forall i j,
            linear_row
              (Examples.lin_ones (out_features (encoder_decoder.attn_fc A)) 1)
              (fun k => tanh (at3 l i j k)) 0
            = sumR (dim2 l) (fun k => tanh (at3 l i j k))) as Hrow.
  { intros i j. unfold linear_row. cbn [Examples.lin_ones in_features
      lin_weight lin_bias]. rewrite L2, Rplus_0_r.
    apply sumR_ext. intros k _. lra. }
  cbn [softmax2_1 sum3_2 tanh3 at2 at3 dim0 dim1 dim2 rows2 cols2 linear_row
       Examples.lin_ones in_features out_features lin_weight lin_bias].
  rewrite Hrow. f_equal. apply sumR_ext. intros j' _. rewrite Hrow.
  reflexivity.
Qed.

End AttentionShapes.

Section AttentionShapesWitnesses.

Lemma attention_returns_iff_shapes_match_witness :
  exists w,
    encoder_decoder.Attention_forward Examples.gru_attention true
      Examples.keep_all3 Examples.state_1x1 Examples.enc_outputs_two = Some w.
Proof.
  apply (proj2 (attention_returns_iff_shapes_match Examples.gru_attention true
                  Examples.keep_all3 Examples.state_1x1
                  Examples.enc_outputs_two)).
  split; reflexivity.
Defined.

End AttentionShapesWitnesses.

(** ** What the forward pass depends on *)

Section Dependence.

Import encoder_decoder.

(** X13: In evaluation mode the dropout layers are the identity, so the
    forward pass does not depend on the dropout masks: two random sources
    with the same draws of [random.random()] give the same result. *)
Theorem eval_mode_ignores_dropout_masks M (rng rng' : Rng) source target
    teacher_forcing :
  (forall t, random_random rng t = random_random rng' t) ->
  forward M false rng source target teacher_forcing
    = forward M false rng' source target teacher_forcing.
Proof.
  intros Hdraw. unfold forward.
  change (Encoder_forward (encoder M) false (enc_mask rng') source)
    with (Encoder_forward (encoder M) false (enc_mask rng) source).
  destruct (Encoder_forward _ _ _ _) as [[enc_outputs state]|]; [|reflexivity].
  cbn [mbind option_bind].
  destruct (select2 target 0) as [out|]; [|reflexivity].
  cbn [mbind option_bind].
  rewrite (loop_ext (loop_body M false rng enc_outputs target teacher_forcing)
             (loop_body M false rng' enc_outputs target teacher_forcing));
    [reflexivity|].
  intros t ls0 _. unfold loop_body. rewrite (Hdraw t). reflexivity.
Qed.

Lemma eval_mode_ignores_dropout_masks_witness :
  forward Examples.toy_model false (Examples.rng_const (/ 2))
    Examples.source_2x1 Examples.target_3x1 (/ 2)
  = forward Examples.toy_model false
      {| random_random := fun _ => / 2;
         enc_mask := fun _ _ => false;
         attn_mask := fun _ => Examples.drop_all3;
         dec_mask := fun _ _ _ => false |}
      Examples.source_2x1 Examples.target_3x1 (/ 2).
Proof.
  apply eval_mode_ignores_dropout_masks. intros t. reflexivity.
Defined.

(** X14: The teacher-forcing probability acts only through the comparisons
    with the draws of the iterations [1 .. max_len - 1]: two probabilities
    which no such draw separates give the same forward pass. *)
Theorem forward_depends_on_forcing_decisions M training rng source target
    (p q : R) :
  (forall t, (1 <= t < rows2 target)%nat ->
     (random_random rng t < p <-> random_random rng t < q)) ->
  forward M training rng source target p
    = forward M training rng source target q.
Proof.
  intros Hpq. unfold forward.
  destruct (Encoder_forward _ _ _ _) as [[enc_outputs state]|]; [|reflexivity].
  cbn [mbind option_bind].
  destruct (select2 target 0) as [out|]; [|reflexivity].
  cbn [mbind option_bind].
  rewrite (loop_ext (loop_body M training rng enc_outputs target p)
             (loop_body M training rng enc_outputs target q)); [reflexivity|].
  intros t ls0 Hin. apply in_seq in Hin.
  assert ((if Rlt_dec (random_random rng t) p then true else false)
          = (if Rlt_dec (random_random rng t) q then true else false)) as Hd.
  { destruct (Hpq t) as [H1 H2]; [lia|].
    destruct (Rlt_dec (random_random rng t) p) as [Hp|Hp];
      destruct (Rlt_dec (random_random rng t) q) as [Hq|Hq];
      try reflexivity; [exfalso; apply Hq, H1, Hp | exfalso; apply Hp, H2, Hq]. }
  unfold loop_body. rewrite Hd. reflexivity.
Qed.

Lemma forward_depends_on_forcing_decisions_witness :
  forward Examples.toy_model true (Examples.rng_const (/ 2))
    Examples.source_2x1 Examples.target_3x1 (3 / 4)
  = forward Examples.toy_model true (Examples.rng_const (/ 2))
      Examples.source_2x1 Examples.target_3x1 (7 / 8).
Proof.
  apply forward_depends_on_forcing_decisions.
  intros t _. simpl. split; intros _; lra.
Defined.

(** X15: In an iteration whose draw is not below the teacher-forcing
    probability, the next token of every batch element is an id below the
    number of logits, namely the first index at which the logits of that
    element, as the decoder returned them in this iteration, are
    largest. *)
Theorem free_running_token_is_first_maximum M training rng enc_outputs target
    teacher_forcing (t : nat) (ls ls' : loop_state) :
  teacher_forcing <= random_random rng t ->
  loop_body M training rng enc_outputs target teacher_forcing t ls = Some ls' ->
  exists context logits state,
    Decoder_forward (decoder M) training (dec_mask rng t)
      (ls_out ls) (ls_state ls) context = Some (logits, state) /\
    len1 (ls_out ls') = rows2 logits /\
    forall b,
      (0 <= at1 (ls_out ls') b < Z.of_nat (cols2 logits))%Z /\
      (forall v, (v < cols2 logits)%nat ->
         at2 logits b v <= at2 logits b (Z.to_nat (at1 (ls_out ls') b))) /\
      (forall v, (v < Z.to_nat (at1 (ls_out ls') b))%nat ->
         at2 logits b v < at2 logits b (Z.to_nat (at1 (ls_out ls') b))).
Proof.
  intros Hdraw Hbody.
  apply loop_body_inv in Hbody as (c & logits & st & _ & Hd & _ & _ & Hout).
  rewrite Rlt_dec_false in Hout by exact Hdraw.
  exists c, logits, st. split; [exact Hd|].
  unfold max1_indices in Hout.
  destruct (cols2 logits =? 0)%nat eqn:E; [discriminate|].
  apply Nat.eqb_neq in E. injection Hout as Hout. rewrite <- Hout.
  cbn [len1 at1]. split; [reflexivity|].
  intros b. rewrite Nat2Z.id.
  pose proof (argmax_upto_le (at2 logits b) (cols2 logits - 1)) as Hle.
  destruct (argmax_upto_max (at2 logits b) (cols2 logits - 1)) as [Hmax Hfirst].
  split; [lia|]. split.
  - intros v Hv. apply Hmax. lia.
  - exact Hfirst.
Qed.

Lemma free_running_token_is_first_maximum_witness :
  exists enc_outputs ls0 ls (logits : ten2 R),
    rollout Examples.toy_model true (Examples.rng_const (/ 2))
      Examples.source_2x1 Examples.target_3x1 0 0 = Some (enc_outputs, ls0) /\
    rollout Examples.toy_model true (Examples.rng_const (/ 2))
      Examples.source_2x1 Examples.target_3x1 0 1 = Some (enc_outputs, ls) /\
    (0 <= at1 (ls_out ls) 0 < Z.of_nat (cols2 logits))%Z.
Proof.
  destruct (toy_rollout_ok true (Examples.rng_const (/ 2)) 0 1)
    as (eo & ls & H); [lia|].
  destruct (rollout_S_inv _ _ _ _ _ _ _ _ _ H) as (ls0 & H0 & Hb).
  destruct (free_running_token_is_first_maximum Examples.toy_model true
              (Examples.rng_const (/ 2)) eo Examples.target_3x1 0 1 ls0 ls)
    as (c & logits & st & _ & _ & Hb');
    [simpl; lra | exact Hb |].
  exists eo, ls0, ls, logits. split; [exact H0|]. split; [exact H|].
  apply (Hb' O).
Defined.

End Dependence.

Section VariantsWitness.

Lemma summation_is_unit_projection_witness :
  match encoder_decoder.Attention_forward Examples.gru_attention true
          Examples.keep_all3 Examples.state_1x1 Examples.enc_outputs_two,
        components.Attention_forward
          {| components.attn_in := 3;
             components.attn_fc1 := Examples.lin_ones 3 4;
             components.attn_fc2 := Examples.lin_ones 4 1;
             components.attn_dropout := Examples.no_dropout |}
          true Examples.keep_all3 Examples.state_1x1
          Examples.enc_outputs_two with
  | Some w, Some w' =>
      shape2 w = shape2 w' /\ forall b s, at2 w b s = at2 w' b s
  | None, None => True
  | _, _ => False
  end.
Proof.
  exact (summation_is_unit_projection Examples.gru_attention true
           Examples.keep_all3 Examples.state_1x1 Examples.enc_outputs_two).
Defined.

End VariantsWitness.

(** ** What the output tensor holds *)

Section OutputsHoldLogits.

Import encoder_decoder.

Lemma setitem3_at {A} (x y : ten3 A) (t : nat) (v : ten2 A) :
  setitem3 x t v = Some y ->
  forall j k,
    at3 y t j k = at2 v (if (rows2 v =? dim1 x)%nat then j else O)
                        (if (cols2 v =? dim2 x)%nat then k else O).
Proof.
  unfold setitem3. intros H.
  destruct (_ && _) in H; [|discriminate].
  injection H as <-. intros j k. simpl. rewrite Nat.eqb_refl. reflexivity.
Qed.

Lemma rollout_0_outputs M training rng source target teacher_forcing
    enc_outputs ls :
  rollout M training rng source target teacher_forcing 0
    = Some (enc_outputs, ls) ->
  ls_outputs ls = zeros3 (rows2 target) (cols2 source) (target_vocab_size M).
Proof.
  unfold rollout. intros H.
  destruct (Encoder_forward _ _ _ _) as [[eo state]|]; [|discriminate].
  cbn [mbind option_bind] in H.
  destruct (select2 target 0) as [out|]; [|discriminate].
  cbn [mbind option_bind seq loop] in H. injection H as _ <-. reflexivity.
Qed.

(** After [n] iterations, position [t] of the output tensor holds the
    logits of iteration [t] for [1 <= t <= n], and zeros for [t > n]. *)
Lemma rollout_outputs_logits M training rng source target teacher_forcing
    (n : nat) :
  forall enc_outputs ls,
    rollout M training rng source target teacher_forcing n
      = Some (enc_outputs, ls) ->
    shape3 (ls_outputs ls)
      = (rows2 target, cols2 source, target_vocab_size M) /\
    (forall t, (1 <= t <= n)%nat ->
       exists ls0 context logits state,
         rollout M training rng source target teacher_forcing (t - 1)
           = Some (enc_outputs, ls0) /\
         _compute_context M training (attn_mask rng t) (ls_state ls0)
           enc_outputs = Some context /\
         Decoder_forward (decoder M) training (dec_mask rng t)
           (ls_out ls0) (ls_state ls0) context = Some (logits, state) /\
         forall b v,
           at3 (ls_outputs ls) t b v =
           at2 logits
             (if (rows2 logits =? cols2 source)%nat then b else O)
             (if (cols2 logits =? target_vocab_size M)%nat then v else O)) /\
    (forall t b v, (n < t)%nat -> at3 (ls_outputs ls) t b v = 0).
Proof.
  induction n as [|n IH]; intros enc_outputs ls H.
  - apply rollout_0_outputs in H. rewrite H.
    split; [reflexivity|]. split; [intros t Ht; lia | reflexivity].
  - apply rollout_S_inv in H as (ls0 & H0 & Hbody).
    destruct (IH _ _ H0) as (Hshape & Hlog & Hzero).
    unfold shape3 in Hshape. injection Hshape as S0 S1 S2.
    apply loop_body_inv in Hbody as (c & logits & st & Hc & Hd & Hset & _).
    pose proof (setitem3_at _ _ _ _ Hset) as Hat.
    apply setitem3_inv in Hset as (_ & T0 & T1 & T2 & Hother).
    split; [unfold shape3; congruence|]. split.
    + intros t Ht. destruct (Nat.eq_dec t (S n)) as [->|Hne].
      * replace (S n - 1)%nat with n by lia.
        exists ls0, c, logits, st.
        split; [exact H0|]. split; [exact Hc|]. split; [exact Hd|].
        intros b v. rewrite Hat, S1, S2. reflexivity.
      * destruct (Hlog t) as (ls1 & c1 & l1 & s1 & R1 & C1 & D1 & E1); [lia|].
        exists ls1, c1, l1, s1.
        split; [exact R1|]. split; [exact C1|]. split; [exact D1|].
        intros b v. rewrite Hother by exact Hne. apply E1.
    + intros t b v Ht. rewrite Hother by lia. apply Hzero. lia.
Qed.

(** X16: Every position [t >= 1] of the tensor which [forward] returns holds
    the logits which the decoder returned in iteration [t], from the token
    and the state that iteration [t] found: a position is written once and
    kept by the later iterations. *)
Theorem forward_outputs_hold_logits M training rng source target
    teacher_forcing outputs :
  forward M training rng source target teacher_forcing = Some outputs ->
  forall t, (1 <= t < rows2 target)%nat ->
    exists enc_outputs ls0 context logits state,
      rollout M training rng source target teacher_forcing (t - 1)
        = Some (enc_outputs, ls0) /\
      _compute_context M training (attn_mask rng t) (ls_state ls0)
        enc_outputs = Some context /\
      Decoder_forward (decoder M) training (dec_mask rng t)
        (ls_out ls0) (ls_state ls0) context = Some (logits, state) /\
      forall b v,
        at3 outputs t b v =
        at2 logits
          (if (rows2 logits =? cols2 source)%nat then b else O)
          (if (cols2 logits =? target_vocab_size M)%nat then v else O).
Proof.
  rewrite forward_rollout. intros H t Ht.
  destruct (rollout _ _ _ _ _ _ _) as [[eo ls]|] eqn:Hroll; [|discriminate].
  cbn [mbind option_bind] in H. injection H as <-.
  destruct (rollout_outputs_logits _ _ _ _ _ _ _ _ _ Hroll) as (_ & Hlog & _).
  destruct (Hlog t) as (ls0 & c & logits & st & H1); [lia|].
  exists eo, ls0, c, logits, st. exact H1.
Qed.

Lemma forward_outputs_hold_logits_witness :
  exists outputs (logits : ten2 R),
    forward Examples.toy_model true (Examples.rng_const (/ 2))
      Examples.source_2x1 Examples.target_3x1 (/ 2) = Some outputs /\
    forall b v,
      at3 outputs 2 b v =
      at2 logits (if (rows2 logits =? 1)%nat then b else O)
                 (if (cols2 logits =? 2)%nat then v else O).
Proof.
  destruct toy_model_contracts as [Hc1 Hc2].
  destruct (forward_ok Examples.toy_model 1 (Examples.table 3)
              (Examples.table 2) toy_model_dims Hc1 Hc2 true
              (Examples.rng_const (/ 2)) Examples.source_2x1
              Examples.target_3x1 (/ 2)) as (outputs & Hf & _);
    try (simpl; lia); try reflexivity.
  - exact source_2x1_in_range.
  - exact target_3x1_in_range.
  - destruct (forward_outputs_hold_logits _ _ _ _ _ _ _ Hf 2%nat)
      as (eo & ls0 & c & logits & st & _ & _ & _ & Hat); [simpl; lia|].
    exists outputs, logits. split; [exact Hf | exact Hat].
Defined.

End OutputsHoldLogits.

(** ** Construction from a valid configuration *)

Section ValidConfiguration.

Import encoder_decoder.

Lemma GRU_init_some (input_size hidden_size : Z) bidirectional kernel :
  (0 < hidden_size)%Z -> (0 < input_size)%Z ->
  GRU_init input_size hidden_size bidirectional kernel
  = Some {| gru_input_size := Z.to_nat input_size;
            gru_hidden_size := Z.to_nat hidden_size;
            gru_bidirectional := bidirectional;
            gru_call := kernel |}.
Proof.
  intros Hh Hi. unfold GRU_init.
  destruct (hidden_size <=? 0)%Z eqn:E1; [apply Z.leb_le in E1; lia|].
  destruct (input_size <=? 0)%Z eqn:E2; [apply Z.leb_le in E2; lia|].
  reflexivity.
Qed.

Lemma Linear_init_some (n_in n_out : Z) w b :
  (0 <= n_in)%Z -> (0 <= n_out)%Z ->
  Linear_init n_in n_out w b
  = Some {| in_features := Z.to_nat n_in; out_features := Z.to_nat n_out;
            lin_weight := w; lin_bias := b |}.
Proof.
  intros Hi Ho. unfold Linear_init.
  destruct (n_in <? 0)%Z eqn:E1; [apply Z.ltb_lt in E1; lia|].
  destruct (n_out <? 0)%Z eqn:E2; [apply Z.ltb_lt in E2; lia|].
  reflexivity.
Qed.

(** X17: [EncoderDecoder.__init__] builds a model from every configuration
    with a positive [rnn_units], a non-negative [attn_units], a dropout
    probability in [0, 1] and a source table of at least one column (the
    input size of the encoder's recurrent layer).  The configured probability reaches the encoder
    and the decoder; the attention module is built with its default, so
    its dropout probability is 0 whatever is configured.  The target
    vocabulary size is the number of rows of the target table, and the
    dense layer of the decoder has that many outputs. *)
Theorem valid_configuration_builds_model dev Ws Wt rnn_units attn_units
    dropout i :
  (0 < rnn_units)%Z -> (0 <= attn_units)%Z -> 0 <= dropout <= 1 ->
  (1 <= cols2 Ws)%nat ->
  exists M,
    EncoderDecoder_init dev Ws Wt rnn_units attn_units dropout i = Some M /\
    drop_p (enc_dropout (encoder M)) = dropout /\
    drop_p (dec_dropout (decoder M)) = dropout /\
    drop_p (attn_dropout (attention M)) = 0 /\
    out_features (attn_fc (attention M)) = Z.to_nat attn_units /\
    target_vocab_size M = rows2 Wt /\
    out_features (dec_fc (decoder M)) = rows2 Wt /\
    model_device M = dev.
Proof.
  intros Hu Ha Hp Hcols.
  unfold EncoderDecoder_init, Encoder_init, Attention_init, Decoder_init.
  rewrite !GRU_init_some by lia. cbn [mbind option_bind].
  rewrite !Linear_init_some by lia. cbn [mbind option_bind].
  rewrite !Dropout_init_some by lra. cbn [mbind option_bind].
  eexists. split; [reflexivity|]. cbn.
  repeat split; try reflexivity. apply Nat2Z.id.
Qed.

Lemma valid_configuration_builds_model_witness :
  exists M,
    EncoderDecoder_init cpu (Examples.table 3) (Examples.table 2) 1 2 (/ 2)
      Examples.toy_init = Some M /\
    drop_p (attn_dropout (attention M)) = 0 /\
    target_vocab_size M = 2%nat.
Proof.
  destruct (valid_configuration_builds_model cpu (Examples.table 3)
              (Examples.table 2) 1 2 (/ 2) Examples.toy_init)
    as (M & Hinit & _ & _ & Hattn & _ & Hv & _);
    [lia | lia | lra | simpl; lia |].
  exists M. split; [exact Hinit|]. split; [exact Hattn | exact Hv].
Defined.

End ValidConfiguration.

(** ** The attention weights in closed form *)

Section ClosedForm.

Lemma sumR_split (a b : nat) (f : nat -> R) :
  sumR (a + b) f = sumR a f + sumR b (fun k => f (a + k)%nat).
Proof.
  induction b as [|b IH].
  - rewrite Nat.add_0_r. simpl. lra.
  - rewrite Nat.add_succ_r. cbn [sumR]. rewrite IH. lra.
Qed.

(** X18: In evaluation mode the summation variant computes Bahdanau's additive
    attention with a sum in place of the scoring vector: the weight of
    position [s] for batch element [b] is the exponential of the score of
    [(dec_state[b], enc_outputs[s, b])] divided by the sum of the
    exponentials of the scores of all positions.  A row of weights thus
    depends on the state and the encoder outputs of its own batch element
    only. *)
Theorem attention_closed_form (A : encoder_decoder.Attention) m
    (dec_state : ten2 R) (enc_outputs : ten3 R) (w : ten2 R) :
  encoder_decoder.Attention_forward A false m dec_state enc_outputs = Some w ->
  forall b s, (s < dim0 enc_outputs)%nat ->
    at2 w b s =
    exp (Spec.summation_score (encoder_decoder.attn_fc A)
           (cols2 dec_state) (dim2 enc_outputs)
           (at2 dec_state b) (at3 enc_outputs s b))
    / sumR (dim0 enc_outputs)
        (fun s' => exp (Spec.summation_score (encoder_decoder.attn_fc A)
                          (cols2 dec_state) (dim2 enc_outputs)
                          (at2 dec_state b) (at3 enc_outputs s' b))).
Proof.
  unfold encoder_decoder.Attention_forward. intros H b s Hs.
  destruct (cat3_2 _ _) as [c|] eqn:Hc; [|discriminate].
  cbn [mbind option_bind dropout3] in H.
  destruct (linear3 _ _) as [l|] eqn:Hl; [|discriminate].
  cbn [mbind option_bind] in H. injection H as <-.
  apply cat3_2_inv in Hc as (_ & _ & C0 & C1 & C2 & Hcat).
  unfold linear3 in Hl.
  destruct (dim2 c =? in_features (encoder_decoder.attn_fc A))%nat eqn:E;
    [|discriminate].
  apply Nat.eqb_eq in E. injection Hl as <-.
  assert (forall s',
            sumR (out_features (encoder_decoder.attn_fc A))
              (fun o => tanh (linear_row (encoder_decoder.attn_fc A)
                                (at3 c b s') o))
            = Spec.summation_score (encoder_decoder.attn_fc A)
                (cols2 dec_state) (dim2 enc_outputs)
                (at2 dec_state b) (at3 enc_outputs s' b)) as Hscore.
  { intros s'. unfold Spec.summation_score. apply sumR_ext. intros o _.
    f_equal. unfold linear_row. f_equal.
    rewrite <- E, C2. cbn [repeat_1n1 unsqueeze1_2 permute102 dim2 cols2].
    rewrite sumR_split. rewrite Hcat.
    cbn [repeat_1n1 unsqueeze1_2 permute102 dim2 cols2 at3]. f_equal.
    - apply sumR_ext. intros k Hk. apply Nat.ltb_lt in Hk. rewrite Hk.
      reflexivity.
    - apply sumR_ext. intros k _.
      assert ((cols2 dec_state + k <? cols2 dec_state)%nat = false) as ->
          by (apply Nat.ltb_ge; lia).
      replace (cols2 dec_state + k - cols2 dec_state)%nat with k by lia.
      reflexivity. }
  cbn [softmax2_1 sum3_2 tanh3 at2 at3 dim0 dim1 dim2 rows2 cols2].
  rewrite Hscore. f_equal.
  rewrite C1. cbn [repeat_1n1 unsqueeze1_2 dim1]. rewrite Nat.mul_1_l.
  apply sumR_ext. intros s' _. f_equal. apply Hscore.
Qed.

Lemma attention_closed_form_witness :
  exists w,
    encoder_decoder.Attention_forward Examples.gru_attention false
      Examples.keep_all3 Examples.state_1x1 Examples.enc_outputs_two = Some w /\
    at2 w 0 1 =
    exp (Spec.summation_score (Examples.lin_ones 3 4) 1 2
           (at2 Examples.state_1x1 0) (at3 Examples.enc_outputs_two 1 0))
    / sumR 2
        (fun s' => exp (Spec.summation_score (Examples.lin_ones 3 4) 1 2
                          (at2 Examples.state_1x1 0)
                          (at3 Examples.enc_outputs_two s' 0))).
Proof.
  eexists. split; [reflexivity|].
  apply (attention_closed_form Examples.gru_attention Examples.keep_all3
           Examples.state_1x1 Examples.enc_outputs_two _ eq_refl 0%nat 1%nat).
  simpl. lia.
Defined.

End ClosedForm.

(** ** The LSTM encoder and decoder *)

Section LSTMBlocks.

(** X19: The LSTM encoder that returns has been given ids of its table; it
    calls the recurrent layer without an initial state on a tensor of shape
    [(seq_len, batch_size, embed_dim)] which holds, for every id, its row
    of the table, passed through dropout in training mode; and it hands
    back the outputs and the two states of the recurrent layer as they
    are. *)
Theorem lstm_encoder_feeds_dropped_embeddings (E : components.Encoder)
    training m source outputs hidden cell :
  components.Encoder_forward E training m source
    = Some (outputs, (hidden, cell)) ->
  Spec.ids_in_range source (rows2 (emb_weight (components.enc_embedding E))) /\
  exists x,
    lstm_call (components.enc_lstm E) x None = Some (outputs, (hidden, cell)) /\
    shape3 x = (rows2 source, cols2 source,
                cols2 (emb_weight (components.enc_embedding E))) /\
    forall s b k,
      at3 x s b k =
      let raw := at2 (emb_weight (components.enc_embedding E))
                   (Z.to_nat (at2 source s b)) k in
      if training
      then drop (drop_p (components.enc_dropout E)) (m s b k) raw
      else raw.
Proof.
  intros H. split.
  - intros i j Hi Hj.
    destruct (Z_le_dec 0 (at2 source i j)) as [H0|H0];
      [destruct (Z_lt_dec (at2 source i j)
                   (Z.of_nat (rows2 (emb_weight (components.enc_embedding E)))))
         as [H1|H1]; [lia|] |];
      unfold components.Encoder_forward in H;
      rewrite (embedding2_out_of_range _ _ i j Hi Hj) in H by lia;
      discriminate.
  - unfold components.Encoder_forward in H.
    destruct (embedding2 _ _) as [e|] eqn:He; [|discriminate].
    cbn [mbind option_bind] in H.
    destruct (lstm_call _ _ _) as [[o [h c]]|] eqn:Hcall; [|discriminate].
    cbn [mbind option_bind] in H. injection H as <- <- <-.
    apply embedding2_inv in He. subst e.
    eexists. split; [exact Hcall|].
    destruct training; split; reflexivity.
Qed.

Lemma lstm_encoder_feeds_dropped_embeddings_witness :
  exists outputs hidden cell,
    components.Encoder_forward Examples.lstm_encoder true Examples.drop_all3
      Examples.source_2x1 = Some (outputs, (hidden, cell)) /\
    Spec.ids_in_range Examples.source_2x1 3.
Proof.
  assert (exists r,
            components.Encoder_forward Examples.lstm_encoder true
              Examples.drop_all3 Examples.source_2x1 = Some r)
    as [[outputs [hidden cell]] H].
  { eexists. reflexivity. }
  exists outputs, hidden, cell. split; [exact H|].
  exact (proj1 (lstm_encoder_feeds_dropped_embeddings _ _ _ _ _ _ _ H)).
Defined.

(** X20: A step of the LSTM decoder that returns has been given tokens of the
    target table and a context of shape [(1, batch, _)]; its logits have
    one row per token and one column per output of the dense layer, and
    the hidden and cell states it returns are those of the recurrent layer,
    called on the given states. *)
Theorem lstm_decoder_step_shapes (D : components.Decoder) training m_emb
    m_comb token context dec_hidden dec_cell logits hidden cell :
  components.Decoder_forward D training m_emb m_comb token context
    dec_hidden dec_cell = Some (logits, (hidden, cell)) ->
  shape2 logits = (len1 token, out_features (components.dec_fc D)) /\
  dim0 context = 1%nat /\ dim1 context = len1 token /\
  (forall j, (j < len1 token)%nat ->
     (0 <= at1 token j
      < Z.of_nat (rows2 (emb_weight (components.dec_embedding D))))%Z) /\
  exists embedded rnn_input output,
    components.Decoder_rnn_input D training m_emb token context
      = Some (embedded, rnn_input) /\
    lstm_call (components.dec_lstm D) rnn_input (Some (dec_hidden, dec_cell))
      = Some (output, (hidden, cell)).
Proof.
  intros H.
  assert (forall j, (j < len1 token)%nat ->
            (0 <= at1 token j
             < Z.of_nat (rows2 (emb_weight (components.dec_embedding D))))%Z)
    as Hrange.
  { intros j Hj.
    destruct (Z_le_dec 0 (at1 token j)) as [H0|H0];
      [destruct (Z_lt_dec (at1 token j)
                   (Z.of_nat (rows2 (emb_weight (components.dec_embedding D)))))
         as [H1|H1]; [lia|] |];
      unfold components.Decoder_forward, components.Decoder_rnn_input in H;
      rewrite (embedding2_out_of_range _ (unsqueeze0_1 token) O j) in H
        by (simpl; assumption || lia);
      discriminate. }
  unfold components.Decoder_forward in H.
  destruct (components.Decoder_rnn_input _ _ _ _ _) as [[e x]|] eqn:Hin;
    [|discriminate].
  cbn [mbind option_bind] in H.
  destruct (lstm_call _ _ _) as [[o [h c]]|] eqn:Hcall; [|discriminate].
  cbn [mbind option_bind] in H.
  destruct (squeeze0 e) as [e'|] eqn:He'; [|discriminate].
  cbn [mbind option_bind] in H.
  destruct (squeeze0 o) as [o'|] eqn:Ho'; [|discriminate].
  cbn [mbind option_bind] in H.
  destruct (squeeze0 context) as [c'|] eqn:Hc'; [|discriminate].
  cbn [mbind option_bind] in H.
  destruct (cat2_1 o' c') as [k1|] eqn:Hk1; [|discriminate].
  cbn [mbind option_bind] in H.
  destruct (cat2_1 k1 e') as [k2|] eqn:Hk2; [|discriminate].
  cbn [mbind option_bind] in H.
  destruct (linear2 _ _) as [y|] eqn:Hy; [|discriminate].
  cbn [mbind option_bind] in H. injection H as <- <- <-.
  assert (dim1 e = len1 token /\ dim1 e = dim1 context) as [E1 E2].
  { unfold components.Decoder_rnn_input in Hin.
    destruct (embedding2 _ _) as [e0|] eqn:He0; [|discriminate].
    cbn [mbind option_bind] in Hin.
    destruct (cat3_2 _ _) as [x0|] eqn:Hx0; [|discriminate].
    cbn [mbind option_bind] in Hin. injection Hin as <- <-.
    apply embedding2_inv in He0. subst e0.
    apply cat3_2_inv in Hx0 as (_ & X1 & _).
    destruct (dropout3_shape (components.dec_dropout D) training m_emb
                (Ten3 (rows2 (unsqueeze0_1 token)) (cols2 (unsqueeze0_1 token))
                   (cols2 (emb_weight (components.dec_embedding D)))
                   (fun i j k =>
                      at2 (emb_weight (components.dec_embedding D))
                        (Z.to_nat (at2 (unsqueeze0_1 token) i j)) k)))
      as (_ & D1 & _).
    rewrite D1 in X1 |- *. simpl in *. split; [reflexivity | exact X1]. }
  apply squeeze0_inv in He' as (_ & E1' & _).
  apply squeeze0_inv in Hc' as (C0 & C1 & _).
  apply cat2_1_inv in Hk1 as (K0 & K1 & _).
  apply cat2_1_inv in Hk2 as (K2 & K3 & _).
  apply linear2_inv in Hy as (_ & Y0 & Y1).
  destruct (dropout2_shape (components.dec_dropout D) training m_comb k2)
    as [D0 _].
  split; [unfold shape2; f_equal; [lia | exact Y1]|].
  split; [exact C0|]. split; [lia|]. split; [exact Hrange|].
  exists e, x, o. split; [reflexivity | exact Hcall].
Qed.

Lemma lstm_decoder_step_shapes_witness :
  exists logits hidden cell,
    components.Decoder_forward Examples.lstm_decoder true Examples.keep_all3
      Examples.keep_all2 Examples.token_1 Examples.context_1x1x2
      (zeros3 1 1 1) (zeros3 1 1 1) = Some (logits, (hidden, cell)) /\
    shape2 logits = (1%nat, 2%nat).
Proof.
  assert (exists r,
            components.Decoder_forward Examples.lstm_decoder true
              Examples.keep_all3 Examples.keep_all2 Examples.token_1
              Examples.context_1x1x2 (zeros3 1 1 1) (zeros3 1 1 1) = Some r)
    as [[logits [hidden cell]] H].
  { eexists. reflexivity. }
  exists logits, hidden, cell. split; [exact H|].
  exact (proj1 (lstm_decoder_step_shapes _ _ _ _ _ _ _ _ _ _ _ H)).
Defined.

End LSTMBlocks.
